(** * go-tftp: the packet codec and the error taxonomy

    A shallow embedding of [packets/packets.go] and [errors/errors.go]
    together with the properties of the wire format.

    Conventions of the embedding:
    - a Go [string] is a [String.string] (a sequence of bytes), a [[]byte]
      is a [list byte];
    - a [uint16] is a [Z] in the range of [uint16_ok]; the conversion
      [uint16(x)] and the truncation to a byte are written out;
    - Go's [int] lengths are [Z];
    - a function returning [(T, error)] returns a [result T]: [Ok] for a
      nil error, [Err] for a non-nil error and [Panic] for a run-time
      panic (index or slice out of range, nil dereference);
    - an [error] interface value that may be nil is an [option error]. *)

From Stdlib Require Import ZArith List Strings.String Strings.Ascii Strings.Byte.
From Stdlib Require Import Bool Lia DecimalString.
Import ListNotations.

Local Open Scope string_scope.
Local Open Scope list_scope.
Local Open Scope Z_scope.

(** ** Integers and bytes *)

Definition uint16_ok (v : Z) : Prop := 0 <= v < 65536.

(** The conversion [uint16(x)]. *)
Definition uint16 (x : Z) : Z := x mod 65536.

(** The conversion [byte(x)]: the low eight bits. *)
Definition byte_of_Z (x : Z) : byte :=
  match Byte.of_N (Z.to_N (x mod 256)) with
  | Some b => b
  | None => x00
  end.

Definition Z_of_byte (b : byte) : Z := Z.of_N (Byte.to_N b).

Definition len {A : Type} (s : list A) : Z := Z.of_nat (List.length s).

Definition len_str (s : string) : Z := Z.of_nat (String.length s).

(** ** Package errors *)

(** The dynamic values an [error] interface can hold: the seven kinds of
    the package, [io.EOF] (compared by identity in the decoders), and
    [errorString], which stands for [fmt.Errorf] without verbs and for
    every error of a type outside the taxonomy, carrying the text its
    [Error] method returns. *)
Inductive error : Type :=
| ErrorFileNotFound (File : string)
| ErrorAccessViolation
| ErrorDiskFull
| ErrorIllegalOperation (Message : string)
| ErrorUnknownTransferID (TransferID : string)
| ErrorFileExists (File : string)
| ErrorNoSuchUser (User : string)
| EOF
| errorString (s : string).

(** The [Error] methods; [fmt.Sprintf] with a single [%s] verb
    substitutes the string unchanged. *)
Definition Error (e : error) : string :=
  match e with
  | ErrorFileNotFound File => ("Error File Not Found - " ++ File)%string
  | ErrorAccessViolation => "Error Access Violation"
  | ErrorDiskFull => "Error Disk Full"
  | ErrorIllegalOperation Message => ("Error Illegal Operation -  " ++ Message)%string
  | ErrorUnknownTransferID TransferID =>
      ("Error Unknown Transfer ID - " ++ TransferID)%string
  | ErrorFileExists File => ("Error File Exists: " ++ File)%string
  | ErrorNoSuchUser User => ("Error No Such User: " ++ User)%string
  | EOF => "EOF"
  | errorString s => s
  end.

(** ** Results *)

Inductive result (A : Type) : Type :=
| Ok (a : A)
| Err (e : error)
| Panic.

Arguments Ok {A} a.
Arguments Err {A} e.
Arguments Panic {A}.

Definition bind {A B : Type} (r : result A) (k : A -> result B) : result B :=
  match r with
  | Ok a => k a
  | Err e => Err e
  | Panic => Panic
  end.

Notation "x <- r ;; k" := (bind r (fun x => k))
  (at level 61, r at next level, right associativity).

(** [s[lo:]] on a slice; panics when [lo] is out of range. *)
Definition slice_from {A : Type} (s : list A) (lo : Z) : result (list A) :=
  if (lo <? 0) || (len s <? lo) then Panic else Ok (skipn (Z.to_nat lo) s).

(** [s[:hi]] on a string; panics when [hi] is out of range. *)
Definition str_slice_to (s : string) (hi : Z) : result string :=
  if (hi <? 0) || (len_str s <? hi) then Panic
  else Ok (substring 0 (Z.to_nat hi) s).

(** ** bytes.Buffer

    The buffer is represented by its unread contents: writes append at the
    end, reads consume from the front.  As documented, [Write],
    [WriteString] and [WriteByte] always return a nil error (they panic
    only when memory is exhausted, which is not modelled). *)
Module Buffer.

Definition t : Type := list byte.

(** [new(bytes.Buffer)] *)
Definition new : t := [].

(** [bytes.NewBuffer(buf)] *)
Definition NewBuffer (buf : list byte) : t := buf.

Definition Write (b : t) (p : list byte) : t * Z * option error :=
  (b ++ p, len p, None).

Definition WriteString (b : t) (s : string) : t * Z * option error :=
  (b ++ list_byte_of_string s, len_str s, None).

Definition WriteByte (b : t) (c : byte) : t * option error :=
  (b ++ [c], None).

Definition Bytes (b : t) : list byte := b.

(** The unread bytes up to and including the first [delim], the bytes
    left after it, and [io.EOF] when [delim] does not occur (all the
    unread bytes are then returned and consumed). *)
Fixpoint readSlice (b : t) (delim : byte) : list byte * t * option error :=
  match b with
  | [] => ([], [], Some EOF)
  | c :: rest =>
      if Byte.eqb c delim then ([c], rest, None)
      else let '(line, rest', err) := readSlice rest delim in
           (c :: line, rest', err)
  end.

Definition ReadString (b : t) (delim : byte) : t * string * option error :=
  let '(line, b', err) := readSlice b delim in
  (b', string_of_list_byte line, err).

End Buffer.

(** ** encoding/binary, big endian *)
Module binary.

(** [BigEndian.Uint16(b)]: [uint16(b[1]) | uint16(b[0])<<8]; indexing
    panics on a slice shorter than two bytes. *)
Definition Uint16 (b : list byte) : result Z :=
  match b with
  | b0 :: b1 :: _ =>
      Ok (Z.lor (Z_of_byte b1) (uint16 (Z.shiftl (Z_of_byte b0) 8)))
  | _ => Panic
  end.

(** [BigEndian.PutUint16]: [byte(v >> 8)], [byte(v)]. *)
Definition PutUint16 (v : Z) : list byte :=
  [byte_of_Z (Z.shiftr v 8); byte_of_Z v].

(** [binary.Write(w, binary.BigEndian, v)] for a [uint16] value: the two
    bytes go through [w.Write], whose error is returned. *)
Definition Write (w : Buffer.t) (v : Z) : Buffer.t * option error :=
  let '(w, _, err) := Buffer.Write w (PutUint16 v) in (w, err).

End binary.

(** ** Package packets *)

Definition ReadRequestPacketOpcode : Z := 1.
Definition WriteRequestPacketOpcode : Z := 2.
Definition DataPacketOpcode : Z := 3.
Definition AckPacketOpcode : Z := 4.
Definition ErrorPacketOpcode : Z := 5.

(** The five struct types behind the [Packet] interface. *)
Inductive Packet : Type :=
| WriteRequestPacket (Filename Mode : string)
| ReadRequestPacket (Filename Mode : string)
| DataPacket (BlockNumber : Z) (Data : list byte)
| ErrorPacket (ErrorCode : Z) (ErrorMessage : string)
| AckPacket (BlockNumber : Z).

Definition WriteRequestPacket_Encode (Filename Mode : string)
  : result (list byte) :=
  let buffer := Buffer.new in
  let '(buffer, err) := binary.Write buffer (uint16 WriteRequestPacketOpcode) in
  match err with Some e => Err e | None =>
  let '(buffer, l, err) := Buffer.WriteString buffer Filename in
  match err with Some e => Err e | None =>
  if negb (l =? len_str Filename) then
    Err (errorString
           "Length of filename did not match that written to buffer")
  else
  let '(buffer, err) := Buffer.WriteByte buffer x00 in
  match err with Some e => Err e | None =>
  let '(buffer, l, err) := Buffer.WriteString buffer Mode in
  match err with Some e => Err e | None =>
  if negb (l =? len_str Mode) then
    Err (errorString "Length of mode did not match that written to buffer")
  else
  let '(buffer, err) := Buffer.WriteByte buffer x00 in
  match err with Some e => Err e | None =>
  Ok (Buffer.Bytes buffer)
  end end end end end.

Definition ReadRequestPacket_Encode (Filename Mode : string)
  : result (list byte) :=
  let buffer := Buffer.new in
  let '(buffer, err) := binary.Write buffer (uint16 ReadRequestPacketOpcode) in
  match err with Some e => Err e | None =>
  let '(buffer, l, err) := Buffer.WriteString buffer Filename in
  match err with Some e => Err e | None =>
  if negb (l =? len_str Filename) then
    Err (errorString
           "Length of filename did not match that written to buffer")
  else
  let '(buffer, err) := Buffer.WriteByte buffer x00 in
  match err with Some e => Err e | None =>
  let '(buffer, l, err) := Buffer.WriteString buffer Mode in
  match err with Some e => Err e | None =>
  if negb (l =? len_str Mode) then
    Err (errorString "Length of mode did not match that written to buffer")
  else
  let '(buffer, err) := Buffer.WriteByte buffer x00 in
  match err with Some e => Err e | None =>
  Ok (Buffer.Bytes buffer)
  end end end end end.

Definition DataPacket_Encode (BlockNumber : Z) (Data : list byte)
  : result (list byte) :=
  let buffer := Buffer.new in
  let '(buffer, err) := binary.Write buffer (uint16 DataPacketOpcode) in
  match err with Some e => Err e | None =>
  let '(buffer, err) := binary.Write buffer BlockNumber in
  match err with Some e => Err e | None =>
  let '(buffer, l, err) := Buffer.Write buffer Data in
  if negb (l =? len Data) then
    Err (errorString "Length of data did not match that written to buffer")
  else
  match err with Some e => Err e | None =>
  Ok (Buffer.Bytes buffer)
  end end end.

Definition AckPacket_Encode (BlockNumber : Z) : result (list byte) :=
  let buffer := Buffer.new in
  let '(buffer, err) := binary.Write buffer (uint16 AckPacketOpcode) in
  match err with Some e => Err e | None =>
  let '(buffer, err) := binary.Write buffer BlockNumber in
  match err with Some e => Err e | None =>
  Ok (Buffer.Bytes buffer)
  end end.

Definition ErrorPacket_Encode (ErrorCode : Z) (ErrorMessage : string)
  : result (list byte) :=
  if (7 <? ErrorCode) || (ErrorCode <? 0) then
    Err (errorString "Invalid Error Code")
  else
  let buffer := Buffer.new in
  let '(buffer, err) := binary.Write buffer (uint16 ErrorPacketOpcode) in
  match err with Some e => Err e | None =>
  let '(buffer, err) := binary.Write buffer ErrorCode in
  match err with Some e => Err e | None =>
  let '(buffer, l, err) := Buffer.WriteString buffer ErrorMessage in
  if negb (l =? len_str ErrorMessage) then
    Err (errorString
           "Length of error message does not match that written to buffer")
  else
  match err with Some e => Err e | None =>
  let '(buffer, err) := Buffer.WriteByte buffer x00 in
  match err with Some e => Err e | None =>
  Ok (Buffer.Bytes buffer)
  end end end end.

(** The method [Encode] of the interface, dispatched on the dynamic type. *)
Definition Encode (p : Packet) : result (list byte) :=
  match p with
  | WriteRequestPacket Filename Mode => WriteRequestPacket_Encode Filename Mode
  | ReadRequestPacket Filename Mode => ReadRequestPacket_Encode Filename Mode
  | DataPacket BlockNumber Data => DataPacket_Encode BlockNumber Data
  | ErrorPacket ErrorCode ErrorMessage =>
      ErrorPacket_Encode ErrorCode ErrorMessage
  | AckPacket BlockNumber => AckPacket_Encode BlockNumber
  end.

(** [fmt.Sprintf] of a [%d] verb applied to an unsigned value. *)
Definition Sprintf_d (v : Z) : string :=
  NilEmpty.string_of_uint (N.to_uint (Z.to_N v)).

Definition decodeErrorPacket (errorData : list byte) : result Packet :=
  if len errorData <? 5 then
    Err (ErrorIllegalOperation "Invalid Error packet length - must be 5 bytes")
  else
  tl <- slice_from errorData 2 ;;
  errorCode <- binary.Uint16 tl ;;
  if (8 <? errorCode) || (errorCode <? 0) then
    Err (ErrorIllegalOperation "Invalid error code - must be between 0 and 7")
  else
  let buffer := Buffer.NewBuffer errorData in
  let '(buffer, errorMsg, err) := Buffer.ReadString buffer x00 in
  match err with
  | Some EOF => Err (ErrorIllegalOperation "Error message not 0x0 terminated")
  | Some e => Err e
  | None => Ok (ErrorPacket errorCode errorMsg)
  end.

Definition decodeAckPacket (ackData : list byte) : result Packet :=
  if negb (len ackData =? 4) then
    Err (ErrorIllegalOperation "Invalid ACK packet length - must be 4 bytes")
  else
  tl <- slice_from ackData 2 ;;
  blockNumber <- binary.Uint16 tl ;;
  Ok (AckPacket blockNumber).

Definition decodeDataPacket (dataByte : list byte) : result Packet :=
  if len dataByte <? 4 then
    Err (ErrorIllegalOperation "Data packet too short")
  else
  tl <- slice_from dataByte 2 ;;
  blockNumber <- binary.Uint16 tl ;;
  data <- slice_from dataByte 4 ;;
  Ok (DataPacket blockNumber data).

(** [decodeRequest] exists to reduce duplication in the two request
    decoders. *)
Definition decodeRequest (reqData : list byte) : result (string * string) :=
  if len reqData <? 6 then
    Err (ErrorIllegalOperation "RRQ not long enough")
  else
  tl <- slice_from reqData 2 ;;
  let buffer := Buffer.NewBuffer tl in
  let '(buffer, filename, err) := Buffer.ReadString buffer x00 in
  match err with
  | Some EOF => Err (ErrorIllegalOperation "Non 0x0 terminated Filename")
  | Some e => Err e
  | None =>
  (* 2 since the ReadString includes the termination *)
  if len_str filename <? 2 then
    Err (ErrorIllegalOperation "Blank Filename")
  else
  (* trimming the termination byte *)
  filename <- str_slice_to filename (len_str filename - 1) ;;
  let '(buffer, mode, err) := Buffer.ReadString buffer x00 in
  match err with
  | Some EOF => Err (ErrorIllegalOperation "Non 0x0 terminated Mode")
  | Some e => Err e
  | None =>
  if len_str mode <? 2 then
    Err (ErrorIllegalOperation "Blank Mode")
  else
  mode <- str_slice_to mode (len_str mode - 1) ;;
  Ok (filename, mode)
  end end.

Definition decodeWriteRequestPacket (readData : list byte) : result Packet :=
  match decodeRequest readData with
  | Ok (filename, mode) => Ok (WriteRequestPacket filename mode)
  | Err err => Err err
  | Panic => Panic
  end.

Definition decodeReadRequestPacket (readData : list byte) : result Packet :=
  match decodeRequest readData with
  | Ok (filename, mode) => Ok (ReadRequestPacket filename mode)
  | Err err => Err err
  | Panic => Panic
  end.

(** [Decode] decodes the data received in a packet. *)
Definition Decode (packetByte : list byte) : result Packet :=
  if len packetByte <? 2 then Err (errorString "No data in packet") else
  opcode <- binary.Uint16 packetByte ;;
  if opcode =? ReadRequestPacketOpcode then
    decodeReadRequestPacket packetByte
  else if opcode =? WriteRequestPacketOpcode then
    decodeWriteRequestPacket packetByte
  else if opcode =? DataPacketOpcode then
    decodeDataPacket packetByte
  else if opcode =? AckPacketOpcode then
    decodeAckPacket packetByte
  else if opcode =? ErrorPacketOpcode then
    decodeErrorPacket packetByte
  else
    Err (ErrorIllegalOperation
           ("An illegal operation was attempted: Unknown Opcode - "
              ++ Sprintf_d opcode)%string).

(** [ErrorToPacket] converts an arbitrary error to an [ErrorPacket].  A
    nil interface value matches no case of the type switch and reaches
    the default branch, where calling [Error] on it panics. *)
Definition ErrorToPacket (err : option error) : result Packet :=
  match err with
  | Some (ErrorFileNotFound _ as err) => Ok (ErrorPacket 1 (Error err))
  | Some (ErrorAccessViolation as err) => Ok (ErrorPacket 2 (Error err))
  | Some (ErrorDiskFull as err) => Ok (ErrorPacket 3 (Error err))
  | Some (ErrorIllegalOperation _ as err) => Ok (ErrorPacket 4 (Error err))
  | Some (ErrorUnknownTransferID _ as err) => Ok (ErrorPacket 5 (Error err))
  | Some (ErrorFileExists _ as err) => Ok (ErrorPacket 6 (Error err))
  | Some (ErrorNoSuchUser _ as err) => Ok (ErrorPacket 7 (Error err))
  | Some err => Ok (ErrorPacket 0 (Error err))
  | None => Panic
  end.

(** The error of a result, as the [error] interface value the caller
    receives (nil on success). *)
Definition err_of {A : Type} (r : result A) : option error :=
  match r with
  | Err e => Some e
  | _ => None
  end.

(** ** Vocabulary of the specification *)

(** A string without an embedded terminator byte. *)
Definition no_NUL (s : string) : Prop := ~ In x00 (list_byte_of_string s).

(** The packet values the wire format is meant for: requests with
    non-empty, terminator-free file name and mode, 16-bit block numbers,
    error codes 0 to 7. *)
Definition valid (p : Packet) : Prop :=
  match p with
  | WriteRequestPacket Filename Mode
  | ReadRequestPacket Filename Mode =>
      Filename <> "" /\ Mode <> "" /\ no_NUL Filename /\ no_NUL Mode
  | DataPacket BlockNumber _ => uint16_ok BlockNumber
  | ErrorPacket ErrorCode _ => 0 <= ErrorCode <= 7
  | AckPacket BlockNumber => uint16_ok BlockNumber
  end.

(** Decoding the encoding of [p] gives [p] back. *)
Definition round_trip (p : Packet) : Prop :=
  exists bs, Encode p = Ok bs /\ Decode bs = Ok p.

(** The bytes of [b] after the two opcode bytes start with the two
    NUL-terminated strings [f] and [m]. *)
Definition framed (b : list byte) (f m : string) : Prop :=
  exists op0 op1 tail,
    b = op0 :: op1 :: list_byte_of_string f ++ x00
          :: list_byte_of_string m ++ x00 :: tail
    /\ no_NUL f /\ no_NUL m.

(** The three ways a request buffer is malformed: too short, a missing
    terminator (fewer than two zero bytes after the opcode), or a blank
    file name or mode. *)
Definition request_malformed (b : list byte) : Prop :=
  len b < 6
  \/ (count_occ Byte.byte_eq_dec (skipn 2 b) x00 < 2)%nat
  \/ exists f m, framed b f m /\ (f = "" \/ m = "").

(** The big-endian reading of the first two bytes is the opcode [op]. *)
Definition has_opcode (b : list byte) (op : Z) : Prop :=
  binary.Uint16 b = Ok op.

(** The opcode of each packet variant. *)
Definition opcode_of (p : Packet) : Z :=
  match p with
  | WriteRequestPacket _ _ => WriteRequestPacketOpcode
  | ReadRequestPacket _ _ => ReadRequestPacketOpcode
  | DataPacket _ _ => DataPacketOpcode
  | ErrorPacket _ _ => ErrorPacketOpcode
  | AckPacket _ => AckPacketOpcode
  end.

(** * Properties *)

Lemma Ok_inj {A : Type} (a b : A) : Ok a = Ok b -> a = b.
Proof. congruence. Qed.

(** ** Bytes and big-endian integers *)

Lemma Z_of_byte_range (b : byte) : 0 <= Z_of_byte b < 256.
Proof.
  unfold Z_of_byte. pose proof (Byte.to_N_bounded b). lia.
Qed.

Lemma byte_of_Z_of_byte (b : byte) : byte_of_Z (Z_of_byte b) = b.
Proof.
  unfold byte_of_Z. pose proof (Z_of_byte_range b) as Hr.
  rewrite Z.mod_small by exact Hr.
  unfold Z_of_byte. rewrite N2Z.id, Byte.of_to_N. reflexivity.
Qed.

Lemma Z_of_byte_of_Z (z : Z) : Z_of_byte (byte_of_Z z) = z mod 256.
Proof.
  unfold byte_of_Z, Z_of_byte.
  assert (Hm : 0 <= z mod 256 < 256) by (apply Z.mod_pos_bound; lia).
  destruct (Byte.of_N (Z.to_N (z mod 256))) as [b|] eqn:E.
  - apply Byte.to_of_N in E. rewrite E. lia.
  - apply Byte.of_N_None_iff in E. lia.
Qed.

Lemma byte_of_Z_0 : byte_of_Z 0 = x00.
Proof. reflexivity. Qed.

Lemma land_low_high (a d : Z) : Z.land (a mod 2 ^ 8) (d * 2 ^ 8) = 0.
Proof.
  apply Z.bits_inj'. intros n Hn.
  rewrite Z.land_spec, Z.bits_0.
  destruct (Z.ltb_spec n 8).
  - rewrite Z.mul_pow2_bits_low by lia. apply andb_false_r.
  - rewrite Z.mod_pow2_bits_high by lia. reflexivity.
Qed.

Lemma lor_shift_bytes (v : Z) :
  uint16_ok v ->
  Z.lor (v mod 256) (uint16 (Z.shiftl (Z.shiftr v 8 mod 256) 8)) = v.
Proof.
  intros [Hlo Hhi]. unfold uint16.
  rewrite Z.shiftr_div_pow2, Z.shiftl_mul_pow2 by lia.
  assert (Hd : 0 <= v / 2 ^ 8 < 256)
    by (split; [apply Z.div_pos; lia | apply Z.div_lt_upper_bound; lia]).
  rewrite (Z.mod_small (v / 2 ^ 8)) by exact Hd.
  rewrite (Z.mod_small (v / 2 ^ 8 * 2 ^ 8)) by lia.
  change 256 with (2 ^ 8).
  rewrite <- Z.lxor_lor, <- Z.add_nocarry_lxor by apply land_low_high.
  rewrite (Z.div_mod v (2 ^ 8)) at 3 by lia. lia.
Qed.

Lemma Uint16_PutUint16 (v : Z) (rest : list byte) :
  uint16_ok v -> binary.Uint16 (binary.PutUint16 v ++ rest) = Ok v.
Proof.
  intros Hv. unfold binary.Uint16, binary.PutUint16. cbn [app].
  rewrite !Z_of_byte_of_Z, lor_shift_bytes by exact Hv. reflexivity.
Qed.

Lemma Uint16_cons (b0 b1 : byte) (rest : list byte) :
  binary.Uint16 (b0 :: b1 :: rest) = Ok (Z_of_byte b1 + 256 * Z_of_byte b0).
Proof.
  unfold binary.Uint16. f_equal.
  pose proof (Z_of_byte_range b0) as H0. pose proof (Z_of_byte_range b1) as H1.
  unfold uint16. rewrite Z.shiftl_mul_pow2 by lia.
  rewrite (Z.mod_small (Z_of_byte b0 * 2 ^ 8)) by lia.
  rewrite <- (Z.mod_small (Z_of_byte b1) (2 ^ 8)) at 1 by lia.
  rewrite <- Z.lxor_lor, <- Z.add_nocarry_lxor by apply land_low_high.
  rewrite Z.mod_small by lia. lia.
Qed.

Lemma Uint16_range (b : list byte) (v : Z) :
  binary.Uint16 b = Ok v -> uint16_ok v.
Proof.
  destruct b as [|b0 [|b1 rest]]; try discriminate.
  rewrite Uint16_cons. intros H. apply Ok_inj in H. subst v.
  pose proof (Z_of_byte_range b0). pose proof (Z_of_byte_range b1).
  unfold uint16_ok. lia.
Qed.

(** ** Strings as byte sequences *)

Lemma length_string_of_list_byte (l : list byte) :
  String.length (string_of_list_byte l) = List.length l.
Proof.
  induction l as [|b l IH]; [reflexivity|].
  change (string_of_list_byte (b :: l))
    with (String (ascii_of_byte b) (string_of_list_byte l)).
  cbn [String.length List.length]. now rewrite IH.
Qed.

Lemma length_list_byte_of_string (s : string) :
  List.length (list_byte_of_string s) = String.length s.
Proof.
  rewrite <- (string_of_list_byte_of_string s) at 2.
  now rewrite length_string_of_list_byte.
Qed.

Lemma substring_string_of_list_byte (n : nat) (l : list byte) :
  substring 0 n (string_of_list_byte l) = string_of_list_byte (firstn n l).
Proof.
  revert n. induction l as [|b l IH]; intros [|n]; try reflexivity.
  change (string_of_list_byte (b :: l))
    with (String (ascii_of_byte b) (string_of_list_byte l)).
  cbn [substring firstn]. rewrite IH. reflexivity.
Qed.

Lemma string_of_list_byte_inj (l1 l2 : list byte) :
  string_of_list_byte l1 = string_of_list_byte l2 -> l1 = l2.
Proof.
  intros H. apply (f_equal list_byte_of_string) in H.
  now rewrite !list_byte_of_string_of_list_byte in H.
Qed.

(** Trimming the terminator of a line read by [ReadString]. *)
Lemma str_slice_to_line (l : list byte) (d : byte) :
  let line := string_of_list_byte (l ++ [d]) in
  str_slice_to line (len_str line - 1) = Ok (string_of_list_byte l).
Proof.
  cbv zeta. unfold str_slice_to, len_str.
  rewrite length_string_of_list_byte, length_app. cbn [List.length].
  replace (Z.of_nat (List.length l + 1) - 1) with (Z.of_nat (List.length l))
    by lia.
  destruct (Z.ltb_spec (Z.of_nat (List.length l)) 0); [lia|].
  destruct (Z.ltb_spec (Z.of_nat (List.length l + 1))
              (Z.of_nat (List.length l))); [lia|].
  cbn [orb]. rewrite Nat2Z.id, substring_string_of_list_byte.
  rewrite firstn_app, Nat.sub_diag, firstn_all. cbn [firstn].
  now rewrite app_nil_r.
Qed.

(** ** Reading up to a delimiter *)

Lemma readSlice_found (l rest : list byte) (d : byte) :
  ~ In d l -> Buffer.readSlice (l ++ d :: rest) d = (l ++ [d], rest, None).
Proof.
  induction l as [|c l IH]; intros Hn; cbn [app Buffer.readSlice].
  - now rewrite Byte.byte_dec_lb.
  - destruct (Byte.eqb c d) eqn:E.
    + apply Byte.byte_dec_bl in E. subst c. exfalso. apply Hn. now left.
    + rewrite IH; [reflexivity|]. intros Hin. apply Hn. now right.
Qed.

Lemma readSlice_missing (l : list byte) (d : byte) :
  ~ In d l -> Buffer.readSlice l d = (l, [], Some EOF).
Proof.
  induction l as [|c l IH]; intros Hn; cbn [Buffer.readSlice].
  - reflexivity.
  - destruct (Byte.eqb c d) eqn:E.
    + apply Byte.byte_dec_bl in E. subst c. exfalso. apply Hn. now left.
    + rewrite IH; [reflexivity|]. intros Hin. apply Hn. now right.
Qed.

(** Every buffer either contains no [d] or splits at its first [d]. *)
Lemma split_at_first (b : list byte) (d : byte) :
  ~ In d b \/ exists l rest, b = l ++ d :: rest /\ ~ In d l.
Proof.
  induction b as [|c b IH].
  - left. intros [].
  - destruct (Byte.byte_eq_dec c d) as [->|Hne].
    + right. exists [], b. split; [reflexivity|]. intros [].
    + destruct IH as [Hn | (l & rest & -> & Hn)].
      * left. intros [H|H]; [now apply Hne | now apply Hn].
      * right. exists (c :: l), rest. split; [reflexivity|].
        intros [H|H]; [now apply Hne | now apply Hn].
Qed.

Lemma split_at_first_unique (l1 l2 r1 r2 : list byte) (d : byte) :
  ~ In d l1 -> ~ In d l2 -> l1 ++ d :: r1 = l2 ++ d :: r2 ->
  l1 = l2 /\ r1 = r2.
Proof.
  revert l2. induction l1 as [|c l1 IH]; intros [|c2 l2] H1 H2 E;
    cbn [app] in E.
  - injection E as ->. now split.
  - injection E as <- _. exfalso. apply H2. now left.
  - injection E as -> _. exfalso. apply H1. now left.
  - injection E as -> E.
    destruct (IH l2) as [-> ->]; try assumption.
    + intros H. apply H1. now right.
    + intros H. apply H2. now right.
    + now split.
Qed.

(** ** Encoding *)

Lemma PutUint16_opcode (op : Z) :
  0 <= op < 256 -> binary.PutUint16 (uint16 op) = [x00; byte_of_Z op].
Proof.
  intros H. unfold binary.PutUint16, uint16.
  rewrite (Z.mod_small op) by lia.
  rewrite Z.shiftr_div_pow2, Z.div_small by (change (2 ^ 8) with 256; lia).
  reflexivity.
Qed.

Lemma ReadRequestPacket_Encode_bytes (Filename Mode : string) :
  ReadRequestPacket_Encode Filename Mode
  = Ok ([x00; x01] ++ list_byte_of_string Filename ++ [x00]
          ++ list_byte_of_string Mode ++ [x00]).
Proof.
  unfold ReadRequestPacket_Encode, binary.Write, Buffer.Write,
    Buffer.WriteString, Buffer.WriteByte, Buffer.Bytes, Buffer.new.
  rewrite !Z.eqb_refl. cbn [negb].
  rewrite PutUint16_opcode by (unfold ReadRequestPacketOpcode; lia).
  rewrite <- !app_assoc. reflexivity.
Qed.

Lemma WriteRequestPacket_Encode_bytes (Filename Mode : string) :
  WriteRequestPacket_Encode Filename Mode
  = Ok ([x00; x02] ++ list_byte_of_string Filename ++ [x00]
          ++ list_byte_of_string Mode ++ [x00]).
Proof.
  unfold WriteRequestPacket_Encode, binary.Write, Buffer.Write,
    Buffer.WriteString, Buffer.WriteByte, Buffer.Bytes, Buffer.new.
  rewrite !Z.eqb_refl. cbn [negb].
  rewrite PutUint16_opcode by (unfold WriteRequestPacketOpcode; lia).
  rewrite <- !app_assoc. reflexivity.
Qed.

Lemma DataPacket_Encode_bytes (BlockNumber : Z) (Data : list byte) :
  DataPacket_Encode BlockNumber Data
  = Ok ([x00; x03] ++ binary.PutUint16 BlockNumber ++ Data).
Proof.
  unfold DataPacket_Encode, binary.Write, Buffer.Write, Buffer.Bytes,
    Buffer.new.
  rewrite !Z.eqb_refl. cbn [negb].
  rewrite PutUint16_opcode by (unfold DataPacketOpcode; lia).
  rewrite <- !app_assoc. reflexivity.
Qed.

Lemma AckPacket_Encode_bytes (BlockNumber : Z) :
  AckPacket_Encode BlockNumber = Ok ([x00; x04] ++ binary.PutUint16 BlockNumber).
Proof.
  unfold AckPacket_Encode, binary.Write, Buffer.Write, Buffer.Bytes,
    Buffer.new.
  rewrite PutUint16_opcode by (unfold AckPacketOpcode; lia).
  reflexivity.
Qed.

Lemma ErrorPacket_Encode_bytes (ErrorCode : Z) (ErrorMessage : string) :
  0 <= ErrorCode <= 7 ->
  ErrorPacket_Encode ErrorCode ErrorMessage
  = Ok ([x00; x05] ++ [x00; byte_of_Z ErrorCode]
          ++ list_byte_of_string ErrorMessage ++ [x00]).
Proof.
  intros Hc.
  unfold ErrorPacket_Encode, binary.Write, Buffer.Write,
    Buffer.WriteString, Buffer.WriteByte, Buffer.Bytes, Buffer.new.
  destruct (Z.ltb_spec 7 ErrorCode); [lia|].
  destruct (Z.ltb_spec ErrorCode 0); [lia|].
  cbn [orb]. rewrite !Z.eqb_refl. cbn [negb].
  rewrite PutUint16_opcode by (unfold ErrorPacketOpcode; lia).
  rewrite <- (PutUint16_opcode ErrorCode) by lia.
  unfold uint16. rewrite (Z.mod_small ErrorCode) by lia.
  rewrite <- !app_assoc. reflexivity.
Qed.

Lemma ErrorPacket_Encode_invalid (ErrorCode : Z) (ErrorMessage : string) :
  7 < ErrorCode \/ ErrorCode < 0 ->
  ErrorPacket_Encode ErrorCode ErrorMessage
  = Err (errorString "Invalid Error Code").
Proof.
  intros Hc. unfold ErrorPacket_Encode.
  destruct (Z.ltb_spec 7 ErrorCode); [reflexivity|].
  destruct (Z.ltb_spec ErrorCode 0); [reflexivity|lia].
Qed.

(** ** Decoding requests *)

Lemma ReadString_found (l rest : list byte) (d : byte) :
  ~ In d l ->
  Buffer.ReadString (l ++ d :: rest) d
  = (rest, string_of_list_byte (l ++ [d]), None).
Proof.
  intros H. unfold Buffer.ReadString. now rewrite readSlice_found.
Qed.

Lemma ReadString_cons_delim (rest : list byte) (d : byte) :
  Buffer.ReadString (d :: rest) d = (rest, string_of_list_byte [d], None).
Proof. apply (ReadString_found [] rest d). intros []. Qed.

Lemma ReadString_missing (l : list byte) (d : byte) :
  ~ In d l ->
  Buffer.ReadString l d = ([], string_of_list_byte l, Some EOF).
Proof.
  intros H. unfold Buffer.ReadString. now rewrite readSlice_missing.
Qed.

Lemma len_str_line (l : list byte) (d : byte) :
  len_str (string_of_list_byte (l ++ [d])) = len l + 1.
Proof.
  unfold len_str, len. rewrite length_string_of_list_byte, length_app.
  cbn [List.length]. lia.
Qed.

Lemma len_pos_of_nonempty {A : Type} (l : list A) : l <> [] -> 1 <= len l.
Proof.
  destruct l; [congruence|]. intros _. unfold len. cbn [List.length]. lia.
Qed.

Lemma len_cons {A : Type} (a : A) (l : list A) : len (a :: l) = len l + 1.
Proof. unfold len. cbn [List.length]. lia. Qed.

Lemma len_app {A : Type} (l1 l2 : list A) : len (l1 ++ l2) = len l1 + len l2.
Proof. unfold len. rewrite length_app. lia. Qed.

Lemma len_nonneg {A : Type} (l : list A) : 0 <= len l.
Proof. unfold len. lia. Qed.

Lemma slice_from_2 (b0 b1 : byte) (rest : list byte) :
  slice_from (b0 :: b1 :: rest) 2 = Ok rest.
Proof.
  unfold slice_from. rewrite !len_cons. pose proof (len_nonneg rest).
  destruct (Z.ltb_spec 2 0); [lia|].
  destruct (Z.ltb_spec (len rest + 1 + 1) 2); [lia|]. reflexivity.
Qed.

Lemma decodeRequest_short (b : list byte) :
  len b < 6 -> decodeRequest b = Err (ErrorIllegalOperation "RRQ not long enough").
Proof.
  intros H. unfold decodeRequest.
  destruct (Z.ltb_spec (len b) 6); [reflexivity|lia].
Qed.

Section LongRequest.

Variables (op0 op1 : byte) (rest : list byte).
Hypothesis Hlen : 6 <= len (op0 :: op1 :: rest).

Lemma decodeRequest_no_filename_terminator :
  ~ In x00 rest ->
  decodeRequest (op0 :: op1 :: rest)
  = Err (ErrorIllegalOperation "Non 0x0 terminated Filename").
Proof.
  intros Hn. unfold decodeRequest.
  destruct (Z.ltb_spec (len (op0 :: op1 :: rest)) 6); [lia|].
  rewrite slice_from_2. cbn [bind]. unfold Buffer.NewBuffer.
  now rewrite ReadString_missing.
Qed.

Lemma decodeRequest_blank_filename (rest1 : list byte) :
  rest = x00 :: rest1 ->
  decodeRequest (op0 :: op1 :: rest)
  = Err (ErrorIllegalOperation "Blank Filename").
Proof.
  intros ->. unfold decodeRequest.
  destruct (Z.ltb_spec (len (op0 :: op1 :: x00 :: rest1)) 6); [lia|].
  rewrite slice_from_2. cbn [bind]. unfold Buffer.NewBuffer.
  rewrite (ReadString_cons_delim rest1 x00). reflexivity.
Qed.

Section FilenameRead.

Variables (l rest1 : list byte).
Hypothesis Hrest : rest = l ++ x00 :: rest1.
Hypothesis Hl : l <> [].
Hypothesis Hnl : ~ In x00 l.

Lemma decodeRequest_after_filename :
  decodeRequest (op0 :: op1 :: rest)
  = let '(buffer, mode, err) := Buffer.ReadString rest1 x00 in
    match err with
    | Some EOF => Err (ErrorIllegalOperation "Non 0x0 terminated Mode")
    | Some e => Err e
    | None =>
        if len_str mode <? 2 then
          Err (ErrorIllegalOperation "Blank Mode")
        else
          mode <- str_slice_to mode (len_str mode - 1) ;;
          Ok (string_of_list_byte l, mode)
    end.
Proof.
  unfold decodeRequest.
  destruct (Z.ltb_spec (len (op0 :: op1 :: rest)) 6); [lia|].
  rewrite slice_from_2. cbn [bind]. unfold Buffer.NewBuffer.
  rewrite Hrest, ReadString_found by exact Hnl.
  rewrite len_str_line. pose proof (len_pos_of_nonempty l Hl).
  destruct (Z.ltb_spec (len l + 1) 2); [lia|].
  rewrite <- (len_str_line l x00), str_slice_to_line. cbn [bind].
  reflexivity.
Qed.

Lemma decodeRequest_no_mode_terminator :
  ~ In x00 rest1 ->
  decodeRequest (op0 :: op1 :: rest)
  = Err (ErrorIllegalOperation "Non 0x0 terminated Mode").
Proof.
  intros Hn. rewrite decodeRequest_after_filename.
  now rewrite ReadString_missing.
Qed.

Lemma decodeRequest_blank_mode (tail : list byte) :
  rest1 = x00 :: tail ->
  decodeRequest (op0 :: op1 :: rest)
  = Err (ErrorIllegalOperation "Blank Mode").
Proof.
  intros E. rewrite decodeRequest_after_filename, E.
  rewrite (ReadString_cons_delim tail x00). reflexivity.
Qed.

Lemma decodeRequest_ok (m tail : list byte) :
  rest1 = m ++ x00 :: tail -> m <> [] -> ~ In x00 m ->
  decodeRequest (op0 :: op1 :: rest)
  = Ok (string_of_list_byte l, string_of_list_byte m).
Proof.
  intros E Hm Hnm. rewrite decodeRequest_after_filename, E.
  rewrite ReadString_found by exact Hnm.
  rewrite len_str_line. pose proof (len_pos_of_nonempty m Hm).
  destruct (Z.ltb_spec (len m + 1) 2); [lia|].
  rewrite <- (len_str_line m x00), str_slice_to_line. reflexivity.
Qed.

End FilenameRead.

End LongRequest.

(** ** The framing of a request *)

Lemma list_byte_of_string_inj (s1 s2 : string) :
  list_byte_of_string s1 = list_byte_of_string s2 -> s1 = s2.
Proof.
  intros H. apply (f_equal string_of_list_byte) in H.
  now rewrite !string_of_list_byte_of_string in H.
Qed.

Lemma no_NUL_of_bytes (l : list byte) :
  ~ In x00 l -> no_NUL (string_of_list_byte l).
Proof.
  unfold no_NUL. now rewrite list_byte_of_string_of_list_byte.
Qed.

Lemma framed_of_bytes (op0 op1 : byte) (l m tail : list byte) :
  ~ In x00 l -> ~ In x00 m ->
  framed (op0 :: op1 :: l ++ x00 :: m ++ x00 :: tail)
    (string_of_list_byte l) (string_of_list_byte m).
Proof.
  intros Hl Hm. exists op0, op1, tail.
  rewrite !list_byte_of_string_of_list_byte.
  repeat split; auto using no_NUL_of_bytes.
Qed.

(** The two strings of a framed buffer are determined by the buffer. *)
Lemma framed_unique (b : list byte) (f m f' m' : string) :
  framed b f m -> framed b f' m' -> f = f' /\ m = m'.
Proof.
  intros (op0 & op1 & tail & E & Hf & Hm) (op0' & op1' & tail' & E' & Hf' & Hm').
  rewrite E in E'. injection E' as _ _ E'.
  apply split_at_first_unique in E' as [Ef E']; try assumption.
  apply split_at_first_unique in E' as [Em _]; try assumption.
  split; now apply list_byte_of_string_inj.
Qed.

Lemma count_occ_split (l r : list byte) (d : byte) :
  ~ In d l ->
  count_occ Byte.byte_eq_dec (l ++ d :: r) d
  = S (count_occ Byte.byte_eq_dec r d).
Proof.
  intros H. rewrite count_occ_app, count_occ_cons_eq by reflexivity.
  apply (count_occ_not_In Byte.byte_eq_dec) in H. now rewrite H.
Qed.

Lemma len_ge_2_inv (b : list byte) :
  2 <= len b -> exists op0 op1 rest, b = op0 :: op1 :: rest.
Proof.
  destruct b as [|op0 [|op1 rest]]; unfold len; cbn [List.length];
    try lia.
  intros _. now exists op0, op1, rest.
Qed.

Lemma decodeRequest_characterised (b : list byte) :
  (request_malformed b
   /\ exists msg, decodeRequest b = Err (ErrorIllegalOperation msg))
  \/ (~ request_malformed b
      /\ exists f m, framed b f m /\ f <> "" /\ m <> ""
                     /\ decodeRequest b = Ok (f, m)).
Proof.
  destruct (Z.lt_ge_cases (len b) 6) as [Hshort|Hlen].
  { left. split; [now left|]. eexists. now apply decodeRequest_short. }
  destruct (len_ge_2_inv b) as (op0 & op1 & rest & ->); [lia|].
  destruct (split_at_first rest x00) as [Hn | (l & rest1 & Hrest & Hnl)].
  { left. split.
    - right; left. cbn [skipn].
      apply (count_occ_not_In Byte.byte_eq_dec) in Hn. rewrite Hn. lia.
    - eexists. now apply decodeRequest_no_filename_terminator. }
  destruct (split_at_first rest1 x00) as [Hn1 | (m & tail & Hrest1 & Hnm)].
  { left. split.
    - right; left. cbn [skipn]. rewrite Hrest, count_occ_split by exact Hnl.
      apply (count_occ_not_In Byte.byte_eq_dec) in Hn1. rewrite Hn1. lia.
    - destruct l as [|c l].
      + eexists. now apply (decodeRequest_blank_filename op0 op1 rest Hlen rest1).
      + eexists.
        apply (decodeRequest_no_mode_terminator op0 op1 rest Hlen (c :: l) rest1);
          auto; discriminate. }
  assert (Hfr : framed (op0 :: op1 :: rest)
                  (string_of_list_byte l) (string_of_list_byte m)).
  { rewrite Hrest, Hrest1. now apply framed_of_bytes. }
  destruct l as [|c l].
  { left. split.
    - right; right. exists (string_of_list_byte []), (string_of_list_byte m).
      split; [exact Hfr | now left].
    - eexists. now apply (decodeRequest_blank_filename op0 op1 rest Hlen rest1). }
  destruct m as [|c' m].
  { left. split.
    - right; right. exists (string_of_list_byte (c :: l)), (string_of_list_byte []).
      split; [exact Hfr | now right].
    - eexists.
      eapply (decodeRequest_blank_mode op0 op1 rest Hlen (c :: l) rest1 Hrest);
        eauto; discriminate. }
  right. split.
  - intros [H | [H | (f & m' & Hfr' & Hblank)]].
    + lia.
    + cbn [skipn] in H.
      rewrite Hrest, Hrest1, !count_occ_split in H by assumption. lia.
    + destruct (framed_unique _ _ _ _ _ Hfr' Hfr) as [-> ->].
      destruct Hblank as [H | H]; discriminate H.
  - exists (string_of_list_byte (c :: l)), (string_of_list_byte (c' :: m)).
    repeat split; try exact Hfr; try discriminate.
    eapply (decodeRequest_ok op0 op1 rest Hlen (c :: l) rest1 Hrest);
      eauto; discriminate.
Qed.

Lemma framed_app (b s : list byte) (f m : string) :
  framed b f m -> framed (b ++ s) f m.
Proof.
  intros (op0 & op1 & tail & -> & Hf & Hm). exists op0, op1, (tail ++ s).
  repeat split; try assumption.
  cbn [app]. do 2 f_equal.
  rewrite <- app_assoc. cbn [app]. do 2 f_equal.
  rewrite <- app_assoc. reflexivity.
Qed.

Lemma list_byte_of_string_nonempty (s : string) :
  s <> "" -> list_byte_of_string s <> [].
Proof.
  intros Hs E. apply Hs. apply list_byte_of_string_inj. exact E.
Qed.

(** A framed buffer with non-blank strings decodes to these strings. *)
Lemma decodeRequest_of_framed (b : list byte) (f m : string) :
  framed b f m -> f <> "" -> m <> "" -> decodeRequest b = Ok (f, m).
Proof.
  intros (op0 & op1 & tail & -> & Hf & Hm) Hfne Hmne.
  apply list_byte_of_string_nonempty in Hfne, Hmne.
  rewrite <- (string_of_list_byte_of_string f) at 2.
  rewrite <- (string_of_list_byte_of_string m) at 2.
  eapply decodeRequest_ok; eauto.
  rewrite !len_cons, len_app, len_cons, len_app, len_cons.
  pose proof (len_pos_of_nonempty _ Hfne).
  pose proof (len_pos_of_nonempty _ Hmne).
  pose proof (len_nonneg tail). lia.
Qed.

Lemma decodeRequest_Ok_inv (b : list byte) (f m : string) :
  decodeRequest b = Ok (f, m) -> framed b f m /\ f <> "" /\ m <> "".
Proof.
  intros H.
  destruct (decodeRequest_characterised b)
    as [[_ (msg & E)] | [_ (f' & m' & Hfr & Hf & Hm & E)]];
    rewrite E in H; [discriminate|].
  injection H as <- <-. auto.
Qed.

Lemma decodeRequest_app (b s : list byte) (f m : string) :
  decodeRequest b = Ok (f, m) -> decodeRequest (b ++ s) = Ok (f, m).
Proof.
  intros H. apply decodeRequest_Ok_inv in H as (Hfr & Hf & Hm).
  apply decodeRequest_of_framed; auto using framed_app.
Qed.

Lemma decodeRequest_total (b : list byte) :
  (exists f m, decodeRequest b = Ok (f, m))
  \/ (exists msg, decodeRequest b = Err (ErrorIllegalOperation msg)).
Proof.
  destruct (decodeRequest_characterised b)
    as [[_ (msg & E)] | [_ (f & m & _ & _ & _ & E)]]; eauto.
Qed.

(** ** The dispatcher *)

Lemma Decode_short (b : list byte) :
  len b < 2 -> Decode b = Err (errorString "No data in packet").
Proof.
  intros H. unfold Decode.
  destruct (Z.ltb_spec (len b) 2); [reflexivity|lia].
Qed.

Lemma Decode_dispatch (b0 b1 : byte) (rest : list byte) :
  let packetByte := b0 :: b1 :: rest in
  let opcode := Z_of_byte b1 + 256 * Z_of_byte b0 in
  Decode packetByte
  = if opcode =? ReadRequestPacketOpcode then
      decodeReadRequestPacket packetByte
    else if opcode =? WriteRequestPacketOpcode then
      decodeWriteRequestPacket packetByte
    else if opcode =? DataPacketOpcode then
      decodeDataPacket packetByte
    else if opcode =? AckPacketOpcode then
      decodeAckPacket packetByte
    else if opcode =? ErrorPacketOpcode then
      decodeErrorPacket packetByte
    else
      Err (ErrorIllegalOperation
             ("An illegal operation was attempted: Unknown Opcode - "
                ++ Sprintf_d opcode)%string).
Proof.
  cbv zeta. unfold Decode. rewrite !len_cons. pose proof (len_nonneg rest).
  destruct (Z.ltb_spec (len rest + 1 + 1) 2); [lia|].
  rewrite Uint16_cons. reflexivity.
Qed.

Lemma has_opcode_inv (b : list byte) (op : Z) :
  has_opcode b op ->
  exists b0 b1 rest,
    b = b0 :: b1 :: rest /\ op = Z_of_byte b1 + 256 * Z_of_byte b0.
Proof.
  unfold has_opcode. destruct b as [|b0 [|b1 rest]]; try discriminate.
  rewrite Uint16_cons. intros H. apply Ok_inj in H.
  now exists b0, b1, rest.
Qed.

Lemma has_opcode_bytes (b : list byte) (op : Z) :
  has_opcode b op -> 0 <= op < 256 ->
  exists rest, b = x00 :: byte_of_Z op :: rest.
Proof.
  intros H Hop. apply has_opcode_inv in H as (b0 & b1 & rest & -> & ->).
  pose proof (Z_of_byte_range b0). pose proof (Z_of_byte_range b1).
  assert (E0 : Z_of_byte b0 = 0) by lia.
  exists rest. rewrite E0, Z.mul_0_r, Z.add_0_r, byte_of_Z_of_byte.
  rewrite <- (byte_of_Z_of_byte b0), E0. reflexivity.
Qed.

Lemma has_opcode_app (b s : list byte) (op : Z) :
  has_opcode b op -> has_opcode (b ++ s) op.
Proof.
  unfold has_opcode. destruct b as [|b0 [|b1 rest]]; try discriminate.
  cbn [app]. now rewrite !Uint16_cons.
Qed.

(** What each decoder can return. *)
Lemma decodeReadRequestPacket_inv (b : list byte) (p : Packet) :
  decodeReadRequestPacket b = Ok p ->
  exists f m, p = ReadRequestPacket f m /\ decodeRequest b = Ok (f, m).
Proof.
  unfold decodeReadRequestPacket.
  destruct (decodeRequest b) as [[f m]| |]; try discriminate.
  intros [= <-]. eauto.
Qed.

Lemma decodeWriteRequestPacket_inv (b : list byte) (p : Packet) :
  decodeWriteRequestPacket b = Ok p ->
  exists f m, p = WriteRequestPacket f m /\ decodeRequest b = Ok (f, m).
Proof.
  unfold decodeWriteRequestPacket.
  destruct (decodeRequest b) as [[f m]| |]; try discriminate.
  intros [= <-]. eauto.
Qed.

Lemma decodeDataPacket_inv (b : list byte) (p : Packet) :
  decodeDataPacket b = Ok p -> exists n d, p = DataPacket n d.
Proof.
  unfold decodeDataPacket.
  destruct (len b <? 4); [discriminate|].
  destruct (slice_from b 2) as [tl| |]; cbn [bind]; try discriminate.
  destruct (binary.Uint16 tl) as [n| |]; cbn [bind]; try discriminate.
  destruct (slice_from b 4) as [d| |]; cbn [bind]; try discriminate.
  intros H. apply Ok_inj in H. eauto.
Qed.

Lemma decodeAckPacket_inv (b : list byte) (p : Packet) :
  decodeAckPacket b = Ok p -> exists n, p = AckPacket n.
Proof.
  unfold decodeAckPacket.
  destruct (negb (len b =? 4)); [discriminate|].
  destruct (slice_from b 2) as [tl| |]; cbn [bind]; try discriminate.
  destruct (binary.Uint16 tl) as [n| |]; cbn [bind]; try discriminate.
  intros H. apply Ok_inj in H. eauto.
Qed.

Lemma decodeErrorPacket_inv (b : list byte) (p : Packet) :
  decodeErrorPacket b = Ok p -> exists c msg, p = ErrorPacket c msg.
Proof.
  unfold decodeErrorPacket.
  destruct (len b <? 5); [discriminate|].
  destruct (slice_from b 2) as [tl| |]; cbn [bind]; try discriminate.
  destruct (binary.Uint16 tl) as [c| |]; cbn [bind]; try discriminate.
  destruct ((8 <? c) || (c <? 0)); [discriminate|].
  destruct (Buffer.ReadString (Buffer.NewBuffer b) x00) as [[buffer msg] err].
  destruct err as [[]|]; try discriminate.
  intros H. apply Ok_inj in H. eauto.
Qed.

Lemma Decode_read (rest : list byte) :
  Decode (x00 :: x01 :: rest) = decodeReadRequestPacket (x00 :: x01 :: rest).
Proof. rewrite Decode_dispatch. reflexivity. Qed.

Lemma Decode_write (rest : list byte) :
  Decode (x00 :: x02 :: rest) = decodeWriteRequestPacket (x00 :: x02 :: rest).
Proof. rewrite Decode_dispatch. reflexivity. Qed.

Lemma Decode_data (rest : list byte) :
  Decode (x00 :: x03 :: rest) = decodeDataPacket (x00 :: x03 :: rest).
Proof. rewrite Decode_dispatch. reflexivity. Qed.

Lemma Decode_ack (rest : list byte) :
  Decode (x00 :: x04 :: rest) = decodeAckPacket (x00 :: x04 :: rest).
Proof. rewrite Decode_dispatch. reflexivity. Qed.

Lemma Decode_error (rest : list byte) :
  Decode (x00 :: x05 :: rest) = decodeErrorPacket (x00 :: x05 :: rest).
Proof. rewrite Decode_dispatch. reflexivity. Qed.

(** ** Data, Ack and Error decoding *)

Lemma slice_from_4 (b0 b1 b2 b3 : byte) (rest : list byte) :
  slice_from (b0 :: b1 :: b2 :: b3 :: rest) 4 = Ok rest.
Proof.
  unfold slice_from. rewrite !len_cons. pose proof (len_nonneg rest).
  destruct (Z.ltb_spec 4 0); [lia|].
  destruct (Z.ltb_spec (len rest + 1 + 1 + 1 + 1) 4); [lia|]. reflexivity.
Qed.

Lemma decodeDataPacket_bytes (b0 b1 c0 c1 : byte) (data : list byte) :
  decodeDataPacket (b0 :: b1 :: c0 :: c1 :: data)
  = Ok (DataPacket (Z_of_byte c1 + 256 * Z_of_byte c0) data).
Proof.
  unfold decodeDataPacket. rewrite !len_cons. pose proof (len_nonneg data).
  destruct (Z.ltb_spec (len data + 1 + 1 + 1 + 1) 4); [lia|].
  rewrite slice_from_2. cbn [bind]. rewrite Uint16_cons. cbn [bind].
  rewrite slice_from_4. reflexivity.
Qed.

Lemma decodeAckPacket_bytes (b0 b1 c0 c1 : byte) :
  decodeAckPacket [b0; b1; c0; c1]
  = Ok (AckPacket (Z_of_byte c1 + 256 * Z_of_byte c0)).
Proof.
  unfold decodeAckPacket. change (len [b0; b1; c0; c1]) with 4.
  cbn [Z.eqb Pos.eqb negb]. rewrite slice_from_2. cbn [bind].
  rewrite Uint16_cons. reflexivity.
Qed.

(** The message of a decoded Error packet is read from offset 0 of the
    buffer, terminator included.  When the buffer starts with a zero byte,
    as every buffer with opcode 5 does, the message is that single byte. *)
Lemma decodeErrorPacket_leading_NUL (b1 c0 c1 r0 : byte) (rest : list byte) :
  let code := Z_of_byte c1 + 256 * Z_of_byte c0 in
  decodeErrorPacket (x00 :: b1 :: c0 :: c1 :: r0 :: rest)
  = if 8 <? code then
      Err (ErrorIllegalOperation "Invalid error code - must be between 0 and 7")
    else Ok (ErrorPacket code (string_of_list_byte [x00])).
Proof.
  cbv zeta. unfold decodeErrorPacket. rewrite !len_cons.
  pose proof (len_nonneg rest).
  destruct (Z.ltb_spec (len rest + 1 + 1 + 1 + 1 + 1) 5); [lia|].
  rewrite slice_from_2. cbn [bind]. rewrite Uint16_cons. cbn [bind].
  pose proof (Z_of_byte_range c0). pose proof (Z_of_byte_range c1).
  destruct (Z.ltb_spec (Z_of_byte c1 + 256 * Z_of_byte c0) 0); [lia|].
  rewrite orb_false_r.
  destruct (8 <? Z_of_byte c1 + 256 * Z_of_byte c0); [reflexivity|].
  unfold Buffer.NewBuffer. rewrite ReadString_cons_delim. reflexivity.
Qed.

Lemma PutUint16_value (v : Z) :
  uint16_ok v ->
  exists c0 c1,
    binary.PutUint16 v = [c0; c1] /\ Z_of_byte c1 + 256 * Z_of_byte c0 = v.
Proof.
  intros Hv. exists (byte_of_Z (Z.shiftr v 8)), (byte_of_Z v).
  split; [reflexivity|].
  pose proof (Uint16_PutUint16 v [] Hv) as H.
  unfold binary.PutUint16 in H. cbn [app] in H.
  rewrite Uint16_cons in H. now apply Ok_inj in H.
Qed.

(** ** Round trips, variant by variant *)

Lemma round_trip_ReadRequest (f m : string) :
  valid (ReadRequestPacket f m) -> round_trip (ReadRequestPacket f m).
Proof.
  intros (Hf & Hm & Hnf & Hnm). eexists. split.
  - apply ReadRequestPacket_Encode_bytes.
  - cbn [app]. rewrite Decode_read. unfold decodeReadRequestPacket.
    rewrite (decodeRequest_of_framed _ f m); auto.
    exists x00, x01, []. auto.
Qed.

Lemma round_trip_WriteRequest (f m : string) :
  valid (WriteRequestPacket f m) -> round_trip (WriteRequestPacket f m).
Proof.
  intros (Hf & Hm & Hnf & Hnm). eexists. split.
  - apply WriteRequestPacket_Encode_bytes.
  - cbn [app]. rewrite Decode_write. unfold decodeWriteRequestPacket.
    rewrite (decodeRequest_of_framed _ f m); auto.
    exists x00, x02, []. auto.
Qed.

Lemma round_trip_Data (n : Z) (d : list byte) :
  valid (DataPacket n d) -> round_trip (DataPacket n d).
Proof.
  intros Hn. eexists. split.
  - apply DataPacket_Encode_bytes.
  - destruct (PutUint16_value n Hn) as (c0 & c1 & -> & E).
    cbn [app]. rewrite Decode_data, decodeDataPacket_bytes, E. reflexivity.
Qed.

Lemma round_trip_Ack (n : Z) :
  valid (AckPacket n) -> round_trip (AckPacket n).
Proof.
  intros Hn. eexists. split.
  - apply AckPacket_Encode_bytes.
  - destruct (PutUint16_value n Hn) as (c0 & c1 & -> & E).
    cbn [app]. rewrite Decode_ack, decodeAckPacket_bytes, E. reflexivity.
Qed.

(** An Error packet comes back with the one-byte message [\000], whatever
    its message was. *)
Lemma Error_encode_decode (c : Z) (msg : string) :
  0 <= c <= 7 ->
  exists bs, Encode (ErrorPacket c msg) = Ok bs
             /\ Decode bs = Ok (ErrorPacket c (string_of_list_byte [x00])).
Proof.
  intros Hc. eexists. split.
  - apply (ErrorPacket_Encode_bytes c msg Hc).
  - cbn [app]. rewrite Decode_error.
    assert (Hz : Z_of_byte (byte_of_Z c) + 256 * Z_of_byte x00 = c).
    { rewrite Z_of_byte_of_Z, Z.mod_small by lia.
      change (Z_of_byte x00) with 0. lia. }
    destruct (list_byte_of_string msg) as [|r0 rest]; cbn [app];
      rewrite decodeErrorPacket_leading_NUL; cbv zeta; rewrite Hz;
      destruct (Z.ltb_spec 8 c); try lia; reflexivity.
Qed.

(** * The claims of the specification *)

(** C1 (round trip).  The round trip holds for every valid ReadRequest,
    WriteRequest, Data and Ack packet, in particular at the block numbers
    0, 1 and 65535.  It does not hold for Error packets: the encoding of a
    valid Error packet decodes to an Error packet with the same code whose
    message is the single byte [\000], so [ErrorPacket 1 "Test"] does not
    come back. *)
Theorem round_trip_all_but_Error :
  (forall p, valid p -> (forall c msg, p <> ErrorPacket c msg) -> round_trip p)
  /\ (forall c msg, valid (ErrorPacket c msg) ->
      exists bs, Encode (ErrorPacket c msg) = Ok bs
                 /\ Decode bs = Ok (ErrorPacket c (String "000" "")))
  /\ valid (ErrorPacket 1 "Test")
  /\ ~ round_trip (ErrorPacket 1 "Test").
Proof.
  split; [|split; [|split]].
  - intros [f m|f m|n d|c msg|n] Hv Hne.
    + now apply round_trip_WriteRequest.
    + now apply round_trip_ReadRequest.
    + now apply round_trip_Data.
    + now elim (Hne c msg).
    + now apply round_trip_Ack.
  - intros c msg Hv. apply (Error_encode_decode c msg Hv).
  - cbn. lia.
  - intros (bs & He & Hd).
    destruct (Error_encode_decode 1 "Test") as (bs' & He' & Hd'); [lia|].
    rewrite He in He'. apply Ok_inj in He'. subst bs'.
    rewrite Hd in Hd'. discriminate Hd'.
Qed.

(** C2 (Error decoding scenario).  Decoding the nine bytes
    [00 05 00 01 54 65 73 74 00] succeeds with error code 1, but the
    message is read from offset 0 with its terminator kept: it is the
    single byte [\000], not ["Test"]. *)
Theorem Decode_error_scenario_message :
  Decode [x00; x05; x00; x01; x54; x65; x73; x74; x00]
  = Ok (ErrorPacket 1 (String "000" ""))
  /\ Decode [x00; x05; x00; x01; x54; x65; x73; x74; x00]
     <> Ok (ErrorPacket 1 "Test").
Proof.
  split.
  - rewrite Decode_error, decodeErrorPacket_leading_NUL. reflexivity.
  - rewrite Decode_error, decodeErrorPacket_leading_NUL. discriminate.
Qed.

(** C3 (short buffers).  On a buffer of length 0 or 1 [Decode] fails, but
    with the unclassified error ["No data in packet"], which
    [ErrorToPacket] maps to wire code 0; it is not of the Illegal
    Operation kind. *)
Theorem Decode_short_buffer_unclassified (b : list byte) :
  len b < 2 ->
  Decode b = Err (errorString "No data in packet")
  /\ ErrorToPacket (err_of (Decode b)) = Ok (ErrorPacket 0 "No data in packet")
  /\ ~ exists msg, Decode b = Err (ErrorIllegalOperation msg).
Proof.
  intros H. rewrite (Decode_short b H). repeat split.
  intros (msg & E). discriminate E.
Qed.

Lemma Decode_short_buffer_unclassified_witness :
  Decode [] = Err (errorString "No data in packet")
  /\ ErrorToPacket (err_of (Decode [])) = Ok (ErrorPacket 0 "No data in packet")
  /\ ~ exists msg, Decode [] = Err (ErrorIllegalOperation msg).
Proof.
  apply (Decode_short_buffer_unclassified []). reflexivity.
Defined.

(** C4 (accepted error codes).  Encoding an Error packet fails exactly
    when its code exceeds 7.  Decoding a buffer of at least five bytes
    with opcode 5 succeeds when the code at bytes 2..3 is at most 8 and
    fails with an Illegal Operation error when it is greater than 8.  A
    packet with code 8 decodes and cannot be encoded. *)
Theorem ErrorCode_ranges_differ :
  (forall c msg, uint16_ok c ->
     (exists e, Encode (ErrorPacket c msg) = Err e) <-> 7 < c)
  /\ (forall b code,
        has_opcode b ErrorPacketOpcode -> 5 <= len b ->
        binary.Uint16 (skipn 2 b) = Ok code ->
        (code <= 8 -> exists msg, Decode b = Ok (ErrorPacket code msg))
        /\ (8 < code ->
            exists msg, Decode b = Err (ErrorIllegalOperation msg)))
  /\ (exists b msg,
        Decode b = Ok (ErrorPacket 8 msg)
        /\ exists e, Encode (ErrorPacket 8 msg) = Err e).
Proof.
  split; [|split].
  - intros c msg [Hlo Hhi]. split.
    + intros (e & He). destruct (Z.le_gt_cases c 7) as [Hle|Hgt]; [|lia].
      cbn [Encode] in He. rewrite ErrorPacket_Encode_bytes in He by lia.
      discriminate He.
    + intros Hc. eexists. cbn [Encode].
      apply ErrorPacket_Encode_invalid. now left.
  - intros b code Hop Hlen Hcode.
    apply has_opcode_bytes in Hop as (rest & ->);
      [|unfold ErrorPacketOpcode; lia].
    change (byte_of_Z ErrorPacketOpcode) with x05 in *.
    cbn [skipn] in Hcode.
    destruct rest as [|c0 [|c1 [|r0 rest]]];
      try (unfold len in Hlen; cbn [List.length] in Hlen; lia).
    rewrite Uint16_cons in Hcode. apply Ok_inj in Hcode.
    rewrite Decode_error, decodeErrorPacket_leading_NUL. cbv zeta.
    rewrite Hcode. split; intros Hc.
    + destruct (Z.ltb_spec 8 code); [lia|]. eauto.
    + destruct (Z.ltb_spec 8 code); [|lia]. eauto.
  - exists [x00; x05; x00; x08; x00], (String "000" ""). split.
    + rewrite Decode_error, decodeErrorPacket_leading_NUL. reflexivity.
    + eexists. reflexivity.
Qed.

Lemma ErrorCode_ranges_differ_witness :
  (exists e, Encode (ErrorPacket 8 "Test") = Err e)
  /\ (exists msg,
        Decode [x00; x05; x00; x08; x54; x00] = Ok (ErrorPacket 8 msg))
  /\ (exists msg,
        Decode [x00; x05; x00; x09; x54; x00]
        = Err (ErrorIllegalOperation msg)).
Proof.
  destruct ErrorCode_ranges_differ as (Henc & Hdec & _).
  split; [|split].
  - apply (Henc 8 "Test"); [unfold uint16_ok; lia | lia].
  - apply (Hdec [x00; x05; x00; x08; x54; x00] 8);
      [reflexivity | unfold len; cbn; lia | reflexivity | lia].
  - apply (Hdec [x00; x05; x00; x09; x54; x00] 9);
      [reflexivity | unfold len; cbn; lia | reflexivity | lia].
Defined.

(** C5 (unterminated error message).  A buffer of at least five bytes with
    opcode 5, an accepted error code and no zero byte from offset 4 on is
    not rejected: the reader starts at offset 0, finds the zero byte of
    the opcode and returns it as the message, so decoding succeeds. *)
Theorem unterminated_error_message_accepted (b : list byte) (code : Z) :
  has_opcode b ErrorPacketOpcode -> 5 <= len b ->
  ~ In x00 (skipn 4 b) ->
  binary.Uint16 (skipn 2 b) = Ok code -> code <= 8 ->
  Decode b = Ok (ErrorPacket code (String "000" "")).
Proof.
  intros Hop Hlen _ Hcode Hc.
  apply has_opcode_bytes in Hop as (rest & ->);
    [|unfold ErrorPacketOpcode; lia].
  change (byte_of_Z ErrorPacketOpcode) with x05 in *.
  cbn [skipn] in Hcode.
  destruct rest as [|c0 [|c1 [|r0 rest]]];
    try (unfold len in Hlen; cbn [List.length] in Hlen; lia).
  rewrite Uint16_cons in Hcode. apply Ok_inj in Hcode.
  rewrite Decode_error, decodeErrorPacket_leading_NUL. cbv zeta.
  rewrite Hcode. destruct (Z.ltb_spec 8 code); [lia|]. reflexivity.
Qed.

Lemma unterminated_error_message_accepted_witness :
  Decode [x00; x05; x00; x01; x54] = Ok (ErrorPacket 1 (String "000" "")).
Proof.
  apply (unterminated_error_message_accepted [x00; x05; x00; x01; x54] 1).
  - reflexivity.
  - unfold len. cbn. lia.
  - cbn. intros [H|[]]. discriminate H.
  - reflexivity.
  - lia.
Defined.

(** A nil interface value is not an error; handing one to [ErrorToPacket]
    dereferences it. *)
Remark ErrorToPacket_nil : ErrorToPacket None = Panic.
Proof. reflexivity. Qed.

(** C6 (error mapping).  [ErrorToPacket] returns an Error packet for every
    error value: the seven kinds of the taxonomy get the codes 1 to 7 and
    their formatted message, every other error gets code 0 and its own
    message unchanged. *)
Theorem ErrorToPacket_total :
  (forall e, exists c, ErrorToPacket (Some e) = Ok (ErrorPacket c (Error e)))
  /\ (forall File,
        ErrorToPacket (Some (ErrorFileNotFound File))
        = Ok (ErrorPacket 1 ("Error File Not Found - " ++ File)%string))
  /\ ErrorToPacket (Some ErrorAccessViolation)
     = Ok (ErrorPacket 2 "Error Access Violation")
  /\ ErrorToPacket (Some ErrorDiskFull) = Ok (ErrorPacket 3 "Error Disk Full")
  /\ (forall Message,
        ErrorToPacket (Some (ErrorIllegalOperation Message))
        = Ok (ErrorPacket 4 ("Error Illegal Operation -  " ++ Message)%string))
  /\ (forall TransferID,
        ErrorToPacket (Some (ErrorUnknownTransferID TransferID))
        = Ok (ErrorPacket 5
                ("Error Unknown Transfer ID - " ++ TransferID)%string))
  /\ (forall File,
        ErrorToPacket (Some (ErrorFileExists File))
        = Ok (ErrorPacket 6 ("Error File Exists: " ++ File)%string))
  /\ (forall User,
        ErrorToPacket (Some (ErrorNoSuchUser User))
        = Ok (ErrorPacket 7 ("Error No Such User: " ++ User)%string))
  /\ (forall s, ErrorToPacket (Some (errorString s)) = Ok (ErrorPacket 0 s))
  /\ ErrorToPacket (Some EOF) = Ok (ErrorPacket 0 "EOF").
Proof.
  repeat split.
  intros []; eexists; reflexivity.
Qed.

(** C7 (request decoding).  Every buffer is either malformed (shorter than
    six bytes, fewer than two zero bytes after the opcode, or framed with a
    blank file name or mode), and then [decodeRequest] fails with an
    Illegal Operation error; or it is none of these, and then
    [decodeRequest] returns the two NUL-terminated strings after the
    opcode, terminators removed, both non-empty. *)
Theorem decodeRequest_exact (b : list byte) :
  (request_malformed b
   /\ exists msg, decodeRequest b = Err (ErrorIllegalOperation msg))
  \/ (~ request_malformed b
      /\ exists f m, framed b f m /\ f <> "" /\ m <> ""
                     /\ decodeRequest b = Ok (f, m)).
Proof. exact (decodeRequest_characterised b). Qed.

(** C8 (trailing bytes).  When [B] decodes to a ReadRequest or a
    WriteRequest, [B] followed by any bytes [S] decodes to the same
    packet. *)
Theorem Decode_request_ignores_trailing_bytes
  (B S : list byte) (p : Packet) :
  Decode B = Ok p ->
  (exists f m, p = ReadRequestPacket f m \/ p = WriteRequestPacket f m) ->
  Decode (B ++ S) = Ok p.
Proof.
  destruct B as [|b0 [|b1 rest]]; try discriminate.
  cbn [app]. rewrite !Decode_dispatch. cbv zeta.
  change (b0 :: b1 :: rest ++ S) with ((b0 :: b1 :: rest) ++ S).
  set (B := b0 :: b1 :: rest).
  destruct (_ =? ReadRequestPacketOpcode).
  { intros H _. apply decodeReadRequestPacket_inv in H as (f & m & -> & E).
    unfold decodeReadRequestPacket.
    now rewrite (decodeRequest_app B S f m E). }
  destruct (_ =? WriteRequestPacketOpcode).
  { intros H _. apply decodeWriteRequestPacket_inv in H as (f & m & -> & E).
    unfold decodeWriteRequestPacket.
    now rewrite (decodeRequest_app B S f m E). }
  destruct (_ =? DataPacketOpcode).
  { intros H (f & m & [-> | ->]);
      apply decodeDataPacket_inv in H as (n & d & H); discriminate H. }
  destruct (_ =? AckPacketOpcode).
  { intros H (f & m & [-> | ->]);
      apply decodeAckPacket_inv in H as (n & H); discriminate H. }
  destruct (_ =? ErrorPacketOpcode).
  { intros H (f & m & [-> | ->]);
      apply decodeErrorPacket_inv in H as (c & msg & H); discriminate H. }
  discriminate.
Qed.

Lemma Decode_request_ignores_trailing_bytes_witness :
  Decode ([x00; x01; x61; x00; x62; x00] ++ [x05; x06])
  = Ok (ReadRequestPacket "a" "b").
Proof.
  apply (Decode_request_ignores_trailing_bytes
           [x00; x01; x61; x00; x62; x00] [x05; x06]).
  - reflexivity.
  - exists "a", "b". left. reflexivity.
Defined.

(** C9 (request layout).  A ReadRequest encodes to the opcode bytes
    [00 01], the bytes of the file name, a zero byte, the bytes of the
    mode and a zero byte; a WriteRequest likewise with [00 02].  The
    request for ["./testfile"] in mode ["octet"] encodes to the nineteen
    bytes of the scenario. *)
Theorem Encode_request_layout :
  (forall f m,
     Encode (ReadRequestPacket f m)
     = Ok ([x00; x01] ++ list_byte_of_string f ++ [x00]
             ++ list_byte_of_string m ++ [x00]))
  /\ (forall f m,
        Encode (WriteRequestPacket f m)
        = Ok ([x00; x02] ++ list_byte_of_string f ++ [x00]
                ++ list_byte_of_string m ++ [x00]))
  /\ Encode (ReadRequestPacket "./testfile" "octet")
     = Ok [x00; x01; x2e; x2f; x74; x65; x73; x74; x66; x69; x6c; x65; x00;
           x6f; x63; x74; x65; x74; x00].
Proof.
  split; [|split].
  - intros f m. apply ReadRequestPacket_Encode_bytes.
  - intros f m. apply WriteRequestPacket_Encode_bytes.
  - reflexivity.
Qed.

(** C10 (encoders that cannot fail).  [Encode] succeeds on every
    ReadRequest, WriteRequest, Data and Ack packet, whatever the fields;
    an [Encode] that fails is that of an Error packet whose code is out of
    range, never a length-mismatch or write-failure branch. *)
Theorem Encode_fails_only_on_Error :
  (forall f m, exists bs, Encode (ReadRequestPacket f m) = Ok bs)
  /\ (forall f m, exists bs, Encode (WriteRequestPacket f m) = Ok bs)
  /\ (forall n d, exists bs, Encode (DataPacket n d) = Ok bs)
  /\ (forall n, exists bs, Encode (AckPacket n) = Ok bs)
  /\ (forall p e, Encode p = Err e ->
        exists c msg, p = ErrorPacket c msg /\ (7 < c \/ c < 0)
                      /\ e = errorString "Invalid Error Code")
  /\ (forall p, Encode p <> Panic).
Proof.
  repeat split.
  - intros f m. eexists. apply ReadRequestPacket_Encode_bytes.
  - intros f m. eexists. apply WriteRequestPacket_Encode_bytes.
  - intros n d. eexists. apply DataPacket_Encode_bytes.
  - intros n. eexists. apply AckPacket_Encode_bytes.
  - intros [f m|f m|n d|c msg|n] e H; cbn [Encode] in H.
    + rewrite WriteRequestPacket_Encode_bytes in H. discriminate H.
    + rewrite ReadRequestPacket_Encode_bytes in H. discriminate H.
    + rewrite DataPacket_Encode_bytes in H. discriminate H.
    + exists c, msg. destruct (Z.le_gt_cases c 7) as [Hle|Hgt].
      * destruct (Z.lt_ge_cases c 0) as [Hneg|Hpos].
        -- rewrite ErrorPacket_Encode_invalid in H by now right.
           injection H as <-. auto.
        -- rewrite ErrorPacket_Encode_bytes in H by lia. discriminate H.
      * rewrite ErrorPacket_Encode_invalid in H by now left.
        injection H as <-. auto.
    + rewrite AckPacket_Encode_bytes in H. discriminate H.
  - intros [f m|f m|n d|c msg|n] H; cbn [Encode] in H.
    + rewrite WriteRequestPacket_Encode_bytes in H. discriminate H.
    + rewrite ReadRequestPacket_Encode_bytes in H. discriminate H.
    + rewrite DataPacket_Encode_bytes in H. discriminate H.
    + destruct (Z.le_gt_cases c 7) as [Hle|Hgt].
      * destruct (Z.lt_ge_cases c 0) as [Hneg|Hpos].
        -- rewrite ErrorPacket_Encode_invalid in H by now right.
           discriminate H.
        -- rewrite ErrorPacket_Encode_bytes in H by lia. discriminate H.
      * rewrite ErrorPacket_Encode_invalid in H by now left. discriminate H.
    + rewrite AckPacket_Encode_bytes in H. discriminate H.
Qed.

Lemma Encode_fails_only_on_Error_witness :
  exists c msg,
    ErrorPacket 8 "Test" = ErrorPacket c msg /\ (7 < c \/ c < 0)
    /\ errorString "Invalid Error Code" = errorString "Invalid Error Code".
Proof.
  destruct Encode_fails_only_on_Error as (_ & _ & _ & _ & H & _).
  apply (H (ErrorPacket 8 "Test") (errorString "Invalid Error Code")).
  reflexivity.
Defined.

(** * Further properties of the decoder *)

Lemma len_ge_5_inv (b : list byte) :
  5 <= len b ->
  exists b0 b1 c0 c1 r0 rest, b = b0 :: b1 :: c0 :: c1 :: r0 :: rest.
Proof.
  destruct b as [|b0 [|b1 [|c0 [|c1 [|r0 rest]]]]];
    unfold len; cbn [List.length]; try lia.
  intros _. now exists b0, b1, c0, c1, r0, rest.
Qed.

Lemma decodeDataPacket_outcome (b : list byte) :
  (exists p, decodeDataPacket b = Ok p)
  \/ (exists msg, decodeDataPacket b = Err (ErrorIllegalOperation msg)).
Proof.
  destruct (Z.lt_ge_cases (len b) 4) as [Hs|Hl].
  - right. eexists. unfold decodeDataPacket.
    destruct (Z.ltb_spec (len b) 4); [reflexivity|lia].
  - left. destruct b as [|b0 [|b1 [|c0 [|c1 data]]]];
      try (unfold len in Hl; cbn [List.length] in Hl; lia).
    eexists. apply decodeDataPacket_bytes.
Qed.

Lemma decodeAckPacket_outcome (b : list byte) :
  (exists p, decodeAckPacket b = Ok p)
  \/ (exists msg, decodeAckPacket b = Err (ErrorIllegalOperation msg)).
Proof.
  destruct (Z.eqb_spec (len b) 4) as [He|Hne].
  - left. destruct b as [|b0 [|b1 [|c0 [|c1 [|x rest]]]]];
      try (unfold len in He; cbn [List.length] in He; lia).
    eexists. apply decodeAckPacket_bytes.
  - right. eexists. unfold decodeAckPacket.
    destruct (Z.eqb_spec (len b) 4); [contradiction|reflexivity].
Qed.

Lemma decodeErrorPacket_outcome (b : list byte) :
  (exists p, decodeErrorPacket b = Ok p)
  \/ (exists msg, decodeErrorPacket b = Err (ErrorIllegalOperation msg)).
Proof.
  destruct (Z.lt_ge_cases (len b) 5) as [Hs|Hl].
  { right. eexists. unfold decodeErrorPacket.
    destruct (Z.ltb_spec (len b) 5); [reflexivity|lia]. }
  destruct (len_ge_5_inv b Hl) as (b0 & b1 & c0 & c1 & r0 & rest & ->).
  unfold decodeErrorPacket.
  destruct (Z.ltb_spec (len (b0 :: b1 :: c0 :: c1 :: r0 :: rest)) 5); [lia|].
  rewrite slice_from_2. cbn [bind]. rewrite Uint16_cons. cbn [bind].
  destruct ((8 <? _) || (_ <? 0)); [right; eauto|].
  unfold Buffer.NewBuffer.
  destruct (split_at_first (b0 :: b1 :: c0 :: c1 :: r0 :: rest) x00)
    as [Hn | (l & tail & Eb & Hn)].
  - rewrite (ReadString_missing _ x00 Hn). right. eauto.
  - rewrite Eb, (ReadString_found l tail x00 Hn). left. eauto.
Qed.

(** X1 (no crash, classified rejections).  [Decode] never panics.  On a
    buffer of at least two bytes it either returns a packet or fails with
    an error of the Illegal Operation kind. *)
Theorem Decode_outcome (b : list byte) :
  Decode b <> Panic
  /\ (2 <= len b ->
      (exists p, Decode b = Ok p)
      \/ (exists msg, Decode b = Err (ErrorIllegalOperation msg))).
Proof.
  destruct (Z.lt_ge_cases (len b) 2) as [Hs|Hl].
  { rewrite (Decode_short b Hs). split; [discriminate|lia]. }
  assert (H : (exists p, Decode b = Ok p)
              \/ (exists msg, Decode b = Err (ErrorIllegalOperation msg))).
  { destruct (len_ge_2_inv b Hl) as (b0 & b1 & rest & ->).
    rewrite Decode_dispatch. cbv zeta.
    set (B := b0 :: b1 :: rest).
    destruct (_ =? ReadRequestPacketOpcode).
    { unfold decodeReadRequestPacket.
      destruct (decodeRequest_total B) as [(f & m & ->) | (msg & ->)]; eauto. }
    destruct (_ =? WriteRequestPacketOpcode).
    { unfold decodeWriteRequestPacket.
      destruct (decodeRequest_total B) as [(f & m & ->) | (msg & ->)]; eauto. }
    destruct (_ =? DataPacketOpcode); [apply decodeDataPacket_outcome|].
    destruct (_ =? AckPacketOpcode); [apply decodeAckPacket_outcome|].
    destruct (_ =? ErrorPacketOpcode); [apply decodeErrorPacket_outcome|].
    right. eauto. }
  split; [|intros _; exact H].
  destruct H as [(p & ->) | (msg & ->)]; discriminate.
Qed.

Lemma Decode_outcome_witness :
  (exists p, Decode [x00; x09; x00; x00] = Ok p)
  \/ (exists msg,
        Decode [x00; x09; x00; x00] = Err (ErrorIllegalOperation msg)).
Proof.
  apply (Decode_outcome [x00; x09; x00; x00]). unfold len. cbn. lia.
Defined.

(** ** What a successful decoding tells about the buffer *)

Lemma opcode_bytes (b0 b1 : byte) (op : Z) :
  Z_of_byte b1 + 256 * Z_of_byte b0 = op -> 0 <= op < 256 ->
  b0 = x00 /\ b1 = byte_of_Z op.
Proof.
  intros E Hop.
  pose proof (Z_of_byte_range b0). pose proof (Z_of_byte_range b1).
  assert (E0 : Z_of_byte b0 = 0) by lia.
  assert (E1 : Z_of_byte b1 = op) by lia.
  split.
  - rewrite <- (byte_of_Z_of_byte b0), E0. reflexivity.
  - rewrite <- E1. symmetry. apply byte_of_Z_of_byte.
Qed.

Lemma has_opcode_unique (b : list byte) (op1 op2 : Z) :
  has_opcode b op1 -> has_opcode b op2 -> op1 = op2.
Proof.
  unfold has_opcode. intros H1 H2. rewrite H1 in H2. now apply Ok_inj.
Qed.

Lemma Decode_Ok_cases (b : list byte) (p : Packet) :
  Decode b = Ok p ->
  exists rest,
    (b = x00 :: x01 :: rest /\ decodeReadRequestPacket b = Ok p)
    \/ (b = x00 :: x02 :: rest /\ decodeWriteRequestPacket b = Ok p)
    \/ (b = x00 :: x03 :: rest /\ decodeDataPacket b = Ok p)
    \/ (b = x00 :: x04 :: rest /\ decodeAckPacket b = Ok p)
    \/ (b = x00 :: x05 :: rest /\ decodeErrorPacket b = Ok p).
Proof.
  destruct b as [|b0 [|b1 rest]]; try discriminate.
  rewrite Decode_dispatch. cbv zeta. intros H. exists rest.
  destruct (Z.eqb_spec (Z_of_byte b1 + 256 * Z_of_byte b0)
              ReadRequestPacketOpcode) as [E|_].
  { apply opcode_bytes in E as [-> ->]; [|unfold ReadRequestPacketOpcode; lia].
    left. now split. }
  destruct (Z.eqb_spec (Z_of_byte b1 + 256 * Z_of_byte b0)
              WriteRequestPacketOpcode) as [E|_].
  { apply opcode_bytes in E as [-> ->]; [|unfold WriteRequestPacketOpcode; lia].
    right; left. now split. }
  destruct (Z.eqb_spec (Z_of_byte b1 + 256 * Z_of_byte b0)
              DataPacketOpcode) as [E|_].
  { apply opcode_bytes in E as [-> ->]; [|unfold DataPacketOpcode; lia].
    right; right; left. now split. }
  destruct (Z.eqb_spec (Z_of_byte b1 + 256 * Z_of_byte b0)
              AckPacketOpcode) as [E|_].
  { apply opcode_bytes in E as [-> ->]; [|unfold AckPacketOpcode; lia].
    right; right; right; left. now split. }
  destruct (Z.eqb_spec (Z_of_byte b1 + 256 * Z_of_byte b0)
              ErrorPacketOpcode) as [E|_].
  { apply opcode_bytes in E as [-> ->]; [|unfold ErrorPacketOpcode; lia].
    right; right; right; right. now split. }
  discriminate H.
Qed.

Lemma decodeDataPacket_Ok_inv (b : list byte) (p : Packet) :
  decodeDataPacket b = Ok p ->
  exists b0 b1 c0 c1 data,
    b = b0 :: b1 :: c0 :: c1 :: data
    /\ p = DataPacket (Z_of_byte c1 + 256 * Z_of_byte c0) data.
Proof.
  destruct b as [|b0 [|b1 [|c0 [|c1 data]]]]; try discriminate.
  rewrite decodeDataPacket_bytes. intros H. apply Ok_inj in H.
  now exists b0, b1, c0, c1, data.
Qed.

Lemma decodeAckPacket_long (b0 b1 c0 c1 x : byte) (rest : list byte) :
  decodeAckPacket (b0 :: b1 :: c0 :: c1 :: x :: rest)
  = Err (ErrorIllegalOperation "Invalid ACK packet length - must be 4 bytes").
Proof.
  unfold decodeAckPacket. rewrite !len_cons. pose proof (len_nonneg rest).
  destruct (Z.eqb_spec (len rest + 1 + 1 + 1 + 1 + 1) 4); [lia|].
  reflexivity.
Qed.

Lemma decodeAckPacket_Ok_inv (b : list byte) (p : Packet) :
  decodeAckPacket b = Ok p ->
  exists b0 b1 c0 c1,
    b = [b0; b1; c0; c1] /\ p = AckPacket (Z_of_byte c1 + 256 * Z_of_byte c0).
Proof.
  destruct b as [|b0 [|b1 [|c0 [|c1 [|x rest]]]]]; try discriminate.
  - rewrite decodeAckPacket_bytes. intros H. apply Ok_inj in H.
    now exists b0, b1, c0, c1.
  - rewrite decodeAckPacket_long. discriminate.
Qed.

Lemma decodeErrorPacket_leading_NUL_Ok_inv
  (b1 : byte) (rest : list byte) (p : Packet) :
  decodeErrorPacket (x00 :: b1 :: rest) = Ok p ->
  exists c0 c1 r0 rest',
    rest = c0 :: c1 :: r0 :: rest'
    /\ Z_of_byte c1 + 256 * Z_of_byte c0 <= 8
    /\ p = ErrorPacket (Z_of_byte c1 + 256 * Z_of_byte c0) (String "000" "").
Proof.
  destruct rest as [|c0 [|c1 [|r0 rest']]]; try discriminate.
  rewrite decodeErrorPacket_leading_NUL. cbv zeta.
  destruct (Z.ltb_spec 8 (Z_of_byte c1 + 256 * Z_of_byte c0));
    [discriminate|].
  intros Hp. apply Ok_inj in Hp. exists c0, c1, r0, rest'. auto.
Qed.

Lemma be16_range (c0 c1 : byte) : uint16_ok (Z_of_byte c1 + 256 * Z_of_byte c0).
Proof.
  pose proof (Z_of_byte_range c0). pose proof (Z_of_byte_range c1).
  unfold uint16_ok. lia.
Qed.

Lemma PutUint16_be16 (c0 c1 : byte) :
  binary.PutUint16 (Z_of_byte c1 + 256 * Z_of_byte c0) = [c0; c1].
Proof.
  destruct (PutUint16_value _ (be16_range c0 c1)) as (d0 & d1 & -> & E).
  pose proof (Z_of_byte_range c0). pose proof (Z_of_byte_range c1).
  pose proof (Z_of_byte_range d0). pose proof (Z_of_byte_range d1).
  assert (E0 : Z_of_byte d0 = Z_of_byte c0) by lia.
  assert (E1 : Z_of_byte d1 = Z_of_byte c1) by lia.
  rewrite <- (byte_of_Z_of_byte d0), <- (byte_of_Z_of_byte d1), E0, E1.
  now rewrite !byte_of_Z_of_byte.
Qed.

Lemma Encode_has_opcode (p : Packet) (bs : list byte) :
  Encode p = Ok bs -> has_opcode bs (opcode_of p).
Proof.
  destruct p as [f m|f m|n d|c msg|n]; cbn [Encode opcode_of]; intros H.
  - rewrite WriteRequestPacket_Encode_bytes in H. apply Ok_inj in H.
    subst bs. unfold has_opcode. cbn [app]. now rewrite Uint16_cons.
  - rewrite ReadRequestPacket_Encode_bytes in H. apply Ok_inj in H.
    subst bs. unfold has_opcode. cbn [app]. now rewrite Uint16_cons.
  - rewrite DataPacket_Encode_bytes in H. apply Ok_inj in H.
    subst bs. unfold has_opcode. cbn [app]. now rewrite Uint16_cons.
  - destruct (Z.le_gt_cases c 7) as [Hle|Hgt];
      [destruct (Z.lt_ge_cases c 0) as [Hneg|Hpos]|].
    + rewrite ErrorPacket_Encode_invalid in H by now right. discriminate H.
    + rewrite ErrorPacket_Encode_bytes in H by lia. apply Ok_inj in H.
      subst bs. unfold has_opcode. cbn [app]. now rewrite Uint16_cons.
    + rewrite ErrorPacket_Encode_invalid in H by now left. discriminate H.
  - rewrite AckPacket_Encode_bytes in H. apply Ok_inj in H.
    subst bs. unfold has_opcode. cbn [app]. now rewrite Uint16_cons.
Qed.

Lemma Decode_has_opcode (b : list byte) (p : Packet) :
  Decode b = Ok p -> has_opcode b (opcode_of p).
Proof.
  intros H. apply Decode_Ok_cases in H
    as (rest & [[-> H] | [[-> H] | [[-> H] | [[-> H] | [-> H]]]]]).
  - apply decodeReadRequestPacket_inv in H as (f & m & -> & _).
    unfold has_opcode. now rewrite Uint16_cons.
  - apply decodeWriteRequestPacket_inv in H as (f & m & -> & _).
    unfold has_opcode. now rewrite Uint16_cons.
  - apply decodeDataPacket_inv in H as (n & d & ->).
    unfold has_opcode. now rewrite Uint16_cons.
  - apply decodeAckPacket_inv in H as (n & ->).
    unfold has_opcode. now rewrite Uint16_cons.
  - apply decodeErrorPacket_inv in H as (c & msg & ->).
    unfold has_opcode. now rewrite Uint16_cons.
Qed.

(** Every buffer of at least two bytes that [Decode] rejects is rejected
    with an error of the Illegal Operation kind. *)
Lemma Decode_Err_classified (b : list byte) (e : error) :
  2 <= len b -> Decode b = Err e -> exists msg, e = ErrorIllegalOperation msg.
Proof.
  intros Hl H. destruct (len_ge_2_inv b Hl) as (b0 & b1 & rest & ->).
  rewrite Decode_dispatch in H. cbv zeta in H.
  set (B := b0 :: b1 :: rest) in *.
  destruct (_ =? ReadRequestPacketOpcode).
  { unfold decodeReadRequestPacket in H.
    destruct (decodeRequest_total B) as [(f & m & E) | (msg & E)];
      rewrite E in H; [discriminate H|]. injection H as <-. eauto. }
  destruct (_ =? WriteRequestPacketOpcode).
  { unfold decodeWriteRequestPacket in H.
    destruct (decodeRequest_total B) as [(f & m & E) | (msg & E)];
      rewrite E in H; [discriminate H|]. injection H as <-. eauto. }
  destruct (_ =? DataPacketOpcode).
  { destruct (decodeDataPacket_outcome B) as [(p & E) | (msg & E)];
      rewrite E in H; [discriminate H|]. injection H as <-. eauto. }
  destruct (_ =? AckPacketOpcode).
  { destruct (decodeAckPacket_outcome B) as [(p & E) | (msg & E)];
      rewrite E in H; [discriminate H|]. injection H as <-. eauto. }
  destruct (_ =? ErrorPacketOpcode).
  { destruct (decodeErrorPacket_outcome B) as [(p & E) | (msg & E)];
      rewrite E in H; [discriminate H|]. injection H as <-. eauto. }
  injection H as <-. eauto.
Qed.

(** * Further properties of the codec *)

(** X2 (Data decoding).  A buffer with opcode 3 shorter than four bytes is
    rejected as too short; any longer one decodes to the Data packet whose
    block number is the big-endian value of bytes 2 and 3 and whose
    payload is every byte from offset 4 on, possibly none. *)
Theorem Decode_Data_exact (b : list byte) :
  has_opcode b DataPacketOpcode ->
  (len b < 4
   /\ Decode b = Err (ErrorIllegalOperation "Data packet too short"))
  \/ (exists c0 c1 data,
        b = x00 :: x03 :: c0 :: c1 :: data
        /\ Decode b
           = Ok (DataPacket (Z_of_byte c1 + 256 * Z_of_byte c0) data)).
Proof.
  intros Hop. apply has_opcode_bytes in Hop as (rest & ->);
    [|unfold DataPacketOpcode; lia].
  change (byte_of_Z DataPacketOpcode) with x03.
  rewrite Decode_data.
  destruct rest as [|c0 [|c1 data]].
  - left. split; [unfold len; cbn; lia | reflexivity].
  - left. split; [unfold len; cbn; lia | reflexivity].
  - right. exists c0, c1, data. split; [reflexivity|].
    apply decodeDataPacket_bytes.
Qed.

Lemma Decode_Data_exact_witness :
  (len [x00; x03; xff; xff] < 4
   /\ Decode [x00; x03; xff; xff]
      = Err (ErrorIllegalOperation "Data packet too short"))
  \/ (exists c0 c1 data,
        [x00; x03; xff; xff] = x00 :: x03 :: c0 :: c1 :: data
        /\ Decode [x00; x03; xff; xff]
           = Ok (DataPacket (Z_of_byte c1 + 256 * Z_of_byte c0) data)).
Proof.
  apply (Decode_Data_exact [x00; x03; xff; xff]). reflexivity.
Defined.

(** X3 (Ack decoding).  A buffer with opcode 4 decodes exactly when it is
    four bytes long, to the Ack packet whose block number is the
    big-endian value of bytes 2 and 3; at any other length, trailing bytes
    included, it is rejected with an Illegal Operation error. *)
Theorem Decode_Ack_exact (b : list byte) :
  has_opcode b AckPacketOpcode ->
  (len b <> 4
   /\ Decode b
      = Err (ErrorIllegalOperation
               "Invalid ACK packet length - must be 4 bytes"))
  \/ (exists c0 c1,
        b = [x00; x04; c0; c1]
        /\ Decode b = Ok (AckPacket (Z_of_byte c1 + 256 * Z_of_byte c0))).
Proof.
  intros Hop. apply has_opcode_bytes in Hop as (rest & ->);
    [|unfold AckPacketOpcode; lia].
  change (byte_of_Z AckPacketOpcode) with x04.
  rewrite Decode_ack.
  destruct rest as [|c0 [|c1 [|x rest]]].
  - left. split; [unfold len; cbn; lia | reflexivity].
  - left. split; [unfold len; cbn; lia | reflexivity].
  - right. exists c0, c1. split; [reflexivity|].
    apply decodeAckPacket_bytes.
  - left. split.
    + rewrite !len_cons. pose proof (len_nonneg rest). lia.
    + apply decodeAckPacket_long.
Qed.

Lemma Decode_Ack_exact_witness :
  (len [x00; x04; x00; x32; x00] <> 4
   /\ Decode [x00; x04; x00; x32; x00]
      = Err (ErrorIllegalOperation
               "Invalid ACK packet length - must be 4 bytes"))
  \/ (exists c0 c1,
        [x00; x04; x00; x32; x00] = [x00; x04; c0; c1]
        /\ Decode [x00; x04; x00; x32; x00]
           = Ok (AckPacket (Z_of_byte c1 + 256 * Z_of_byte c0))).
Proof.
  apply (Decode_Ack_exact [x00; x04; x00; x32; x00]). reflexivity.
Defined.

(** X4 (opcode and variant).  The first two bytes of every encoding are
    the opcode of the packet's variant, a decoded packet is of the variant
    its buffer's opcode names, and a buffer whose opcode is not 1 to 5 is
    rejected with an Illegal Operation error naming the opcode in
    decimal. *)
Theorem opcode_names_variant :
  (forall p bs, Encode p = Ok bs -> has_opcode bs (opcode_of p))
  /\ (forall b p, Decode b = Ok p -> has_opcode b (opcode_of p))
  /\ (forall b op,
        has_opcode b op -> op < 1 \/ 5 < op ->
        Decode b
        = Err (ErrorIllegalOperation
                 ("An illegal operation was attempted: Unknown Opcode - "
                    ++ Sprintf_d op)%string)).
Proof.
  split; [exact Encode_has_opcode | split; [exact Decode_has_opcode|]].
  intros b op Hop Hout.
  apply has_opcode_inv in Hop as (b0 & b1 & rest & -> & ->).
  rewrite Decode_dispatch. cbv zeta.
  unfold ReadRequestPacketOpcode, WriteRequestPacketOpcode,
    DataPacketOpcode, AckPacketOpcode, ErrorPacketOpcode.
  repeat match goal with
         | |- context [?x =? ?k] => destruct (Z.eqb_spec x k); [lia|]
         end.
  reflexivity.
Qed.

Lemma opcode_names_variant_witness :
  has_opcode [x00; x04; x00; x32] (opcode_of (AckPacket 50))
  /\ Decode [x00; x06; x00; x00]
     = Err (ErrorIllegalOperation
              ("An illegal operation was attempted: Unknown Opcode - "
                 ++ Sprintf_d 6)%string).
Proof.
  destruct opcode_names_variant as (Henc & _ & Hunk). split.
  - apply (Henc (AckPacket 50)). reflexivity.
  - apply (Hunk [x00; x06; x00; x00] 6); [reflexivity | lia].
Defined.

(** X5 (what a decoded packet looks like).  A decoded request has a
    non-empty file name and mode without zero bytes; a decoded Data or Ack
    packet has a 16-bit block number, the Data payload being four bytes
    shorter than the buffer and the Ack buffer four bytes long; a decoded
    Error packet has a code from 0 to 8 and the one-byte message
    [\000]. *)
Theorem Decode_yields_well_formed (b : list byte) (p : Packet) :
  Decode b = Ok p ->
  match p with
  | WriteRequestPacket f m | ReadRequestPacket f m =>
      f <> "" /\ m <> "" /\ no_NUL f /\ no_NUL m
  | DataPacket n d => uint16_ok n /\ len b = 4 + len d
  | AckPacket n => uint16_ok n /\ len b = 4
  | ErrorPacket c msg => 0 <= c <= 8 /\ msg = String "000" ""
  end.
Proof.
  intros H. apply Decode_Ok_cases in H
    as (rest & [[-> H] | [[-> H] | [[-> H] | [[-> H] | [-> H]]]]]).
  - apply decodeReadRequestPacket_inv in H as (f & m & -> & E).
    apply decodeRequest_Ok_inv in E
      as ((op0 & op1 & tail & _ & Hf & Hm) & Hfn & Hmn). auto.
  - apply decodeWriteRequestPacket_inv in H as (f & m & -> & E).
    apply decodeRequest_Ok_inv in E
      as ((op0 & op1 & tail & _ & Hf & Hm) & Hfn & Hmn). auto.
  - apply decodeDataPacket_Ok_inv in H
      as (b0 & b1 & c0 & c1 & data & E & ->).
    split; [apply be16_range|]. rewrite E, !len_cons. lia.
  - apply decodeAckPacket_Ok_inv in H as (b0 & b1 & c0 & c1 & E & ->).
    split; [apply be16_range|]. rewrite E. reflexivity.
  - apply decodeErrorPacket_leading_NUL_Ok_inv in H
      as (c0 & c1 & r0 & rest' & _ & Hc & ->).
    pose proof (be16_range c0 c1) as [Hlo _]. auto.
Qed.

Lemma Decode_yields_well_formed_witness :
  0 <= 3 <= 8 /\ String "000" "" = String "000" "".
Proof.
  apply (Decode_yields_well_formed
           [x00; x05; x00; x03; x46; x75; x6c; x6c; x00]
           (ErrorPacket 3 (String "000" ""))).
  rewrite Decode_error, decodeErrorPacket_leading_NUL. reflexivity.
Defined.

(** X6 (encoding a decoded packet).  A decoded packet other than an Error
    packet encodes to a prefix of the buffer it came from; for Data and
    Ack packets the encoding is the whole buffer, for requests what
    follows it is the ignored trailing bytes. *)
Theorem Encode_after_Decode (b : list byte) (p : Packet) :
  Decode b = Ok p -> (forall c msg, p <> ErrorPacket c msg) ->
  exists bs tail,
    Encode p = Ok bs /\ b = bs ++ tail
    /\ match p with
       | DataPacket _ _ | AckPacket _ => tail = []
       | _ => True
       end.
Proof.
  intros H Hne. apply Decode_Ok_cases in H
    as (rest & [[Eb H] | [[Eb H] | [[Eb H] | [[Eb H] | [Eb H]]]]]).
  - apply decodeReadRequestPacket_inv in H as (f & m & -> & E).
    apply decodeRequest_Ok_inv in E as ((op0 & op1 & tail & E & _) & _).
    rewrite Eb in E. injection E as <- <- E.
    eexists. exists tail. split; [apply ReadRequestPacket_Encode_bytes|].
    split; [|exact I]. rewrite Eb, E. cbn [app]. do 2 f_equal.
    rewrite <- !app_assoc. cbn [app]. f_equal. f_equal.
    rewrite <- app_assoc. reflexivity.
  - apply decodeWriteRequestPacket_inv in H as (f & m & -> & E).
    apply decodeRequest_Ok_inv in E as ((op0 & op1 & tail & E & _) & _).
    rewrite Eb in E. injection E as <- <- E.
    eexists. exists tail. split; [apply WriteRequestPacket_Encode_bytes|].
    split; [|exact I]. rewrite Eb, E. cbn [app]. do 2 f_equal.
    rewrite <- !app_assoc. cbn [app]. f_equal. f_equal.
    rewrite <- app_assoc. reflexivity.
  - apply decodeDataPacket_Ok_inv in H
      as (b0 & b1 & c0 & c1 & data & E & ->).
    rewrite Eb in E. injection E as <- <- E.
    eexists. exists []. split; [apply DataPacket_Encode_bytes|].
    split; [|reflexivity].
    rewrite PutUint16_be16, app_nil_r, Eb, E. reflexivity.
  - apply decodeAckPacket_Ok_inv in H as (b0 & b1 & c0 & c1 & E & ->).
    rewrite Eb in E. injection E as <- <- E.
    eexists. exists []. split; [apply AckPacket_Encode_bytes|].
    split; [|reflexivity].
    rewrite PutUint16_be16, app_nil_r, Eb, E. reflexivity.
  - apply decodeErrorPacket_inv in H as (c & msg & ->).
    now elim (Hne c msg).
Qed.

Lemma Encode_after_Decode_witness :
  exists bs tail,
    Encode (ReadRequestPacket "a" "b") = Ok bs
    /\ [x00; x01; x61; x00; x62; x00; x05; x06] = bs ++ tail /\ True.
Proof.
  apply (Encode_after_Decode [x00; x01; x61; x00; x62; x00; x05; x06]
           (ReadRequestPacket "a" "b")).
  - reflexivity.
  - discriminate.
Defined.

(** X7 (the encoding loses nothing).  Two valid packets with the same
    encoding are the same packet, Error packets included. *)
Theorem Encode_injective (p1 p2 : Packet) :
  valid p1 -> valid p2 -> Encode p1 = Encode p2 -> p1 = p2.
Proof.
  intros Hv1 Hv2 E.
  assert (Hrt : forall p, valid p -> (forall c msg, p <> ErrorPacket c msg) ->
                          round_trip p).
  { intros [f m|f m|n d|c msg|n] Hv Hne.
    - now apply round_trip_WriteRequest.
    - now apply round_trip_ReadRequest.
    - now apply round_trip_Data.
    - now elim (Hne c msg).
    - now apply round_trip_Ack. }
  assert (Hop : forall bs, Encode p1 = Ok bs -> opcode_of p1 = opcode_of p2).
  { intros bs H1. assert (H2 : Encode p2 = Ok bs) by now rewrite <- E.
    apply Encode_has_opcode in H1, H2.
    exact (has_opcode_unique _ _ _ H1 H2). }
  destruct p1 as [f1 m1|f1 m1|n1 d1|c1 msg1|n1].
  1-3, 5:
    destruct (Hrt _ Hv1) as (bs & He & Hd); [discriminate|];
    specialize (Hop bs He);
    destruct p2 as [f2 m2|f2 m2|n2 d2|c2 msg2|n2]; try discriminate Hop;
    (destruct (Hrt _ Hv2) as (bs' & He' & Hd'); [discriminate|]);
    rewrite He, He' in E; apply Ok_inj in E; subst bs';
    rewrite Hd in Hd'; now apply Ok_inj in Hd'.
  cbn [valid] in Hv1.
  pose proof (ErrorPacket_Encode_bytes c1 msg1 Hv1) as He.
  cbn [Encode] in E, Hop. specialize (Hop _ He).
  destruct p2 as [f2 m2|f2 m2|n2 d2|c2 msg2|n2]; try discriminate Hop.
  cbn [valid] in Hv2. cbn [Encode] in E.
  rewrite He, (ErrorPacket_Encode_bytes c2 msg2 Hv2) in E.
  apply Ok_inj in E. cbn [app] in E. injection E as Ec Em.
  apply (f_equal Z_of_byte) in Ec.
  rewrite !Z_of_byte_of_Z, !Z.mod_small in Ec by lia. subst c2.
  apply app_inv_tail in Em. apply list_byte_of_string_inj in Em.
  now subst msg2.
Qed.

Lemma Encode_injective_witness :
  ErrorPacket 1 "Test" = ErrorPacket 1 "Test".
Proof.
  apply (Encode_injective (ErrorPacket 1 "Test") (ErrorPacket 1 "Test")).
  - cbn. lia.
  - cbn. lia.
  - reflexivity.
Defined.

(** X8 (layout of Data, Ack and Error encodings).  A Data packet encodes
    to [00 03], the block number as two big-endian bytes and the payload;
    an Ack packet to [00 04] and the two block-number bytes; an Error
    packet with a code from 0 to 7 to [00 05 00], the code byte, the
    message bytes and a zero byte.  Block 50 with payload ["Test"] gives
    [00 03 00 32 54 65 73 74]. *)
Theorem Encode_Data_Ack_Error_layout :
  (forall n d,
     Encode (DataPacket n d)
     = Ok ([x00; x03; byte_of_Z (n / 256); byte_of_Z n] ++ d))
  /\ (forall n,
        Encode (AckPacket n)
        = Ok [x00; x04; byte_of_Z (n / 256); byte_of_Z n])
  /\ (forall c msg,
        0 <= c <= 7 ->
        Encode (ErrorPacket c msg)
        = Ok ([x00; x05; x00; byte_of_Z c]
                ++ list_byte_of_string msg ++ [x00]))
  /\ Encode (DataPacket 50 [x54; x65; x73; x74])
     = Ok [x00; x03; x00; x32; x54; x65; x73; x74].
Proof.
  assert (Hput : forall n,
             binary.PutUint16 n = [byte_of_Z (n / 256); byte_of_Z n]).
  { intros n. unfold binary.PutUint16.
    rewrite Z.shiftr_div_pow2 by lia. reflexivity. }
  split; [|split; [|split]].
  - intros n d. cbn [Encode].
    rewrite DataPacket_Encode_bytes, Hput. reflexivity.
  - intros n. cbn [Encode].
    rewrite AckPacket_Encode_bytes, Hput. reflexivity.
  - intros c msg Hc. cbn [Encode].
    rewrite ErrorPacket_Encode_bytes by exact Hc. reflexivity.
  - reflexivity.
Qed.

Lemma Encode_Data_Ack_Error_layout_witness :
  Encode (ErrorPacket 1 "Test")
  = Ok [x00; x05; x00; x01; x54; x65; x73; x74; x00].
Proof.
  destruct Encode_Data_Ack_Error_layout as (_ & _ & H & _).
  apply (H 1 "Test"). lia.
Defined.

(** X9 (mapped errors can be sent).  The packet [ErrorToPacket] builds for
    an error always has a code from 0 to 7, so [Encode] accepts it and
    produces [00 05 00], the code, the error's text and a zero byte. *)
Theorem ErrorToPacket_encodes (e : error) :
  exists c,
    0 <= c <= 7
    /\ ErrorToPacket (Some e) = Ok (ErrorPacket c (Error e))
    /\ Encode (ErrorPacket c (Error e))
       = Ok ([x00; x05; x00; byte_of_Z c]
               ++ list_byte_of_string (Error e) ++ [x00]).
Proof.
  assert (H : exists c, 0 <= c <= 7
                        /\ ErrorToPacket (Some e) = Ok (ErrorPacket c (Error e))).
  { destruct e; eexists; (split; [|reflexivity]); lia. }
  destruct H as (c & Hc & He). exists c. repeat split; try lia; try exact He.
  cbn [Encode]. now rewrite ErrorPacket_Encode_bytes.
Qed.

(** X10 (reporting a rejected buffer).  When [Decode] rejects a buffer of
    at least two bytes, [ErrorToPacket] turns the error into an Error
    packet with wire code 4 whose message is the Illegal Operation text,
    and that packet encodes. *)
Theorem rejection_reported_as_code_4 (b : list byte) (e : error) :
  2 <= len b -> Decode b = Err e ->
  exists msg,
    e = ErrorIllegalOperation msg
    /\ ErrorToPacket (Some e)
       = Ok (ErrorPacket 4 ("Error Illegal Operation -  " ++ msg)%string)
    /\ Encode (ErrorPacket 4 ("Error Illegal Operation -  " ++ msg)%string)
       = Ok ([x00; x05; x00; x04]
               ++ list_byte_of_string
                    ("Error Illegal Operation -  " ++ msg)%string
               ++ [x00]).
Proof.
  intros Hl H. destruct (Decode_Err_classified b e Hl H) as (msg & ->).
  exists msg. repeat split.
  cbn [Encode]. rewrite ErrorPacket_Encode_bytes by lia. reflexivity.
Qed.

Lemma rejection_reported_as_code_4_witness :
  exists msg,
    ErrorIllegalOperation "Invalid ACK packet length - must be 4 bytes"
    = ErrorIllegalOperation msg
    /\ ErrorToPacket
         (Some (ErrorIllegalOperation
                  "Invalid ACK packet length - must be 4 bytes"))
       = Ok (ErrorPacket 4 ("Error Illegal Operation -  " ++ msg)%string)
    /\ Encode (ErrorPacket 4 ("Error Illegal Operation -  " ++ msg)%string)
       = Ok ([x00; x05; x00; x04]
               ++ list_byte_of_string
                    ("Error Illegal Operation -  " ++ msg)%string
               ++ [x00]).
Proof.
  apply (rejection_reported_as_code_4 [x00; x04; x00]).
  - unfold len. cbn. lia.
  - reflexivity.
Defined.


(** X12 (trailing bytes, variant by variant).  Bytes appended to a buffer
    that decodes to a Data packet are appended to the payload; appended to
    one that decodes to an Ack packet they make it rejected; appended to
    one that decodes to an Error packet they change nothing. *)
Theorem trailing_bytes_by_variant (b s : list byte) :
  (forall n d,
     Decode b = Ok (DataPacket n d) ->
     Decode (b ++ s) = Ok (DataPacket n (d ++ s)))
  /\ (forall n,
        Decode b = Ok (AckPacket n) -> s <> [] ->
        Decode (b ++ s)
        = Err (ErrorIllegalOperation
                 "Invalid ACK packet length - must be 4 bytes"))
  /\ (forall c msg,
        Decode b = Ok (ErrorPacket c msg) ->
        Decode (b ++ s) = Ok (ErrorPacket c msg)).
Proof.
  split; [|split].
  - intros n d H. pose proof (Decode_has_opcode _ _ H) as Hop.
    apply has_opcode_bytes in Hop as (rest & ->);
      [|cbn; unfold DataPacketOpcode; lia].
    change (byte_of_Z (opcode_of (DataPacket n d))) with x03 in *.
    rewrite Decode_data in H.
    apply decodeDataPacket_Ok_inv in H
      as (b0 & b1 & c0 & c1 & data & E & Ep).
    injection E as _ _ ->. injection Ep as -> ->.
    cbn [app]. now rewrite Decode_data, decodeDataPacket_bytes.
  - intros n H Hs. pose proof (Decode_has_opcode _ _ H) as Hop.
    apply has_opcode_bytes in Hop as (rest & ->);
      [|cbn; unfold AckPacketOpcode; lia].
    change (byte_of_Z (opcode_of (AckPacket n))) with x04 in *.
    rewrite Decode_ack in H.
    apply decodeAckPacket_Ok_inv in H as (b0 & b1 & c0 & c1 & E & _).
    injection E as _ _ ->.
    destruct s as [|x s]; [congruence|].
    cbn [app]. now rewrite Decode_ack, decodeAckPacket_long.
  - intros c msg H. pose proof (Decode_has_opcode _ _ H) as Hop.
    apply has_opcode_bytes in Hop as (rest & ->);
      [|cbn; unfold ErrorPacketOpcode; lia].
    change (byte_of_Z (opcode_of (ErrorPacket c msg))) with x05 in *.
    rewrite Decode_error in H.
    apply decodeErrorPacket_leading_NUL_Ok_inv in H
      as (c0 & c1 & r0 & rest' & -> & Hc & Ep).
    cbn [app]. rewrite Decode_error, decodeErrorPacket_leading_NUL.
    cbv zeta. destruct (Z.ltb_spec 8 (Z_of_byte c1 + 256 * Z_of_byte c0));
      [lia|]. now rewrite Ep.
Qed.

Lemma trailing_bytes_by_variant_witness :
  Decode ([x00; x03; x00; x32; x54] ++ [x65; x73])
  = Ok (DataPacket 50 ([x54] ++ [x65; x73]))
  /\ Decode ([x00; x04; x00; x32] ++ [x65; x73])
     = Err (ErrorIllegalOperation
              "Invalid ACK packet length - must be 4 bytes").
Proof.
  split.
  - apply (trailing_bytes_by_variant [x00; x03; x00; x32; x54] [x65; x73]).
    rewrite Decode_data, decodeDataPacket_bytes. reflexivity.
  - apply (proj1 (proj2 (trailing_bytes_by_variant
                            [x00; x04; x00; x32] [x65; x73])) 50).
    + rewrite Decode_ack, decodeAckPacket_bytes. reflexivity.
    + discriminate.
Defined.

Lemma Decode_ReadRequest_inv (b : list byte) (f m : string) :
  Decode b = Ok (ReadRequestPacket f m) -> decodeRequest b = Ok (f, m).
Proof.
  intros H. apply Decode_Ok_cases in H
    as (rest & [[_ H] | [[_ H] | [[_ H] | [[_ H] | [_ H]]]]]).
  - apply decodeReadRequestPacket_inv in H as (f' & m' & E & H).
    now injection E as <- <-.
  - apply decodeWriteRequestPacket_inv in H as (f' & m' & E & _).
    discriminate E.
  - apply decodeDataPacket_inv in H as (n & d & E). discriminate E.
  - apply decodeAckPacket_inv in H as (n & E). discriminate E.
  - apply decodeErrorPacket_inv in H as (c & msg & E). discriminate E.
Qed.

Lemma Decode_WriteRequest_inv (b : list byte) (f m : string) :
  Decode b = Ok (WriteRequestPacket f m) -> decodeRequest b = Ok (f, m).
Proof.
  intros H. apply Decode_Ok_cases in H
    as (rest & [[_ H] | [[_ H] | [[_ H] | [[_ H] | [_ H]]]]]).
  - apply decodeReadRequestPacket_inv in H as (f' & m' & E & _).
    discriminate E.
  - apply decodeWriteRequestPacket_inv in H as (f' & m' & E & H).
    now injection E as <- <-.
  - apply decodeDataPacket_inv in H as (n & d & E). discriminate E.
  - apply decodeAckPacket_inv in H as (n & E). discriminate E.
  - apply decodeErrorPacket_inv in H as (c & msg & E). discriminate E.
Qed.

(** X13 (which message for which malformed request).  [decodeRequest]
    reports the first violation in this order: a buffer shorter than six
    bytes, a file name without terminator, a blank file name, a mode
    without terminator, a blank mode. *)
Theorem decodeRequest_messages (b : list byte) :
  (len b < 6 ->
   decodeRequest b = Err (ErrorIllegalOperation "RRQ not long enough"))
  /\ (forall op0 op1 rest,
        b = op0 :: op1 :: rest -> 6 <= len b ->
        (~ In x00 rest ->
         decodeRequest b
         = Err (ErrorIllegalOperation "Non 0x0 terminated Filename"))
        /\ (forall rest1,
              rest = x00 :: rest1 ->
              decodeRequest b = Err (ErrorIllegalOperation "Blank Filename"))
        /\ (forall l rest1,
              rest = l ++ x00 :: rest1 -> l <> [] -> ~ In x00 l ->
              (~ In x00 rest1 ->
               decodeRequest b
               = Err (ErrorIllegalOperation "Non 0x0 terminated Mode"))
              /\ (forall tail,
                    rest1 = x00 :: tail ->
                    decodeRequest b
                    = Err (ErrorIllegalOperation "Blank Mode")))).
Proof.
  split; [apply decodeRequest_short|].
  intros op0 op1 rest -> Hlen. split; [|split].
  - now apply decodeRequest_no_filename_terminator.
  - intros rest1 E. now apply (decodeRequest_blank_filename _ _ _ Hlen rest1).
  - intros l rest1 E Hl Hn. split.
    + now apply (decodeRequest_no_mode_terminator _ _ _ Hlen l rest1).
    + intros tail E1.
      now apply (decodeRequest_blank_mode _ _ _ Hlen l rest1 E Hl Hn tail).
Qed.

Lemma decodeRequest_messages_witness :
  decodeRequest [x00; x02; x61; x00; x62]
  = Err (ErrorIllegalOperation "RRQ not long enough")
  /\ decodeRequest [x00; x01; x00; x62; x63; x00]
     = Err (ErrorIllegalOperation "Blank Filename")
  /\ decodeRequest [x00; x01; x61; x00; x62; x63]
     = Err (ErrorIllegalOperation "Non 0x0 terminated Mode").
Proof.
  split; [|split].
  - apply (proj1 (decodeRequest_messages [x00; x02; x61; x00; x62])).
    unfold len. cbn. lia.
  - destruct (proj2 (decodeRequest_messages [x00; x01; x00; x62; x63; x00])
                x00 x01 [x00; x62; x63; x00] eq_refl) as (_ & H & _).
    + unfold len. cbn. lia.
    + apply (H [x62; x63; x00]). reflexivity.
  - destruct (proj2 (decodeRequest_messages [x00; x01; x61; x00; x62; x63])
                x00 x01 [x61; x00; x62; x63] eq_refl) as (_ & _ & H).
    + unfold len. cbn. lia.
    + apply (H [x61] [x62; x63]).
      * reflexivity.
      * discriminate.
      * intros [E|[]]. discriminate E.
      * intros [E|[E|[]]]; discriminate E.
Defined.

(** X14 (when the round trip holds).  A request packet survives encoding
    and decoding exactly when its file name and mode are non-empty and
    free of zero bytes; an Error packet exactly when its code is 0 to 7
    and its message is the single byte [\000]. *)
Theorem round_trip_exactly :
  (forall f m,
     round_trip (ReadRequestPacket f m) <-> valid (ReadRequestPacket f m))
  /\ (forall f m,
        round_trip (WriteRequestPacket f m) <-> valid (WriteRequestPacket f m))
  /\ (forall c msg,
        round_trip (ErrorPacket c msg)
        <-> 0 <= c <= 7 /\ msg = String "000" "").
Proof.
  split; [|split].
  - intros f m. split; [|apply round_trip_ReadRequest].
    intros (bs & _ & Hd). apply Decode_ReadRequest_inv in Hd.
    apply decodeRequest_Ok_inv in Hd
      as ((op0 & op1 & tail & _ & Hf & Hm) & Hfn & Hmn).
    cbn [valid]. auto.
  - intros f m. split; [|apply round_trip_WriteRequest].
    intros (bs & _ & Hd). apply Decode_WriteRequest_inv in Hd.
    apply decodeRequest_Ok_inv in Hd
      as ((op0 & op1 & tail & _ & Hf & Hm) & Hfn & Hmn).
    cbn [valid]. auto.
  - intros c msg. split.
    + intros (bs & He & Hd).
      assert (Hc : 0 <= c <= 7).
      { destruct (Z.le_gt_cases c 7) as [Hle|Hgt];
          [destruct (Z.lt_ge_cases c 0) as [Hneg|Hpos]|]; try lia.
        - cbn [Encode] in He.
          rewrite ErrorPacket_Encode_invalid in He by now right.
          discriminate He.
        - cbn [Encode] in He.
          rewrite ErrorPacket_Encode_invalid in He by now left.
          discriminate He. }
      split; [exact Hc|].
      destruct (Error_encode_decode c msg Hc) as (bs' & He' & Hd').
      rewrite He in He'. apply Ok_inj in He'. subst bs'.
      rewrite Hd in Hd'. apply Ok_inj in Hd'. now injection Hd'.
    + intros [Hc ->]. apply (Error_encode_decode c (String "000" "") Hc).
Qed.

Lemma round_trip_exactly_witness :
  round_trip (ReadRequestPacket "./testfile" "octet")
  /\ ~ round_trip (WriteRequestPacket EmptyString "octet")
  /\ round_trip (ErrorPacket 1 (String "000" "")).
Proof.
  destruct round_trip_exactly as (Hr & Hw & He). split; [|split].
  - apply Hr. cbn [valid]. unfold no_NUL. repeat split; try discriminate.
    + cbn. intros H.
      repeat (destruct H as [H|H]; [discriminate H|]). exact H.
    + cbn. intros H.
      repeat (destruct H as [H|H]; [discriminate H|]). exact H.
  - intros H. apply Hw in H. destruct H as [H _]. now apply H.
  - apply He. split; [lia | reflexivity].
Defined.
